(** * tecplot_tools.hdf: the HDF5 exporter and its Tecplot macro

    A shallow embedding of [create_hdf5] (src/tecplot_tools/hdf.py).

    - numpy arrays are a shape and a row-major buffer, over any type of
      elements: the exporter copies them and computes with none;
    - [variables] is the list of the items of the dict, in insertion order;
      a dict has distinct keys, which the theorems assume as [NoDup];
    - the h5py file is a finite map from dataset names to arrays, the file
      system a finite map from paths to files, with no directories and no
      I/O failures; paths are POSIX path strings in pathlib's normal form;
    - h5py reads a dataset name as a path; the map is what h5py does for
      variable names that are one link each, which the theorems on what
      is written assume as [no_slash];
    - the function runs in a state-and-exception monad over the file system:
      a raised exception keeps whatever has been written so far, as the
      [with] block of the source does;
    - Python locals that a branch may leave unbound ([nt], [macro_filename])
      are options, and reading an unbound one raises [UnboundLocalError]. *)

From Stdlib Require Import ZArith Lia Ascii.
From stdpp Require Import base option list strings pretty gmap.

Local Open Scope Z_scope.
Local Open Scope nat_scope.

(** ** Python exceptions and the monad of the embedding *)

Inductive exn : Type :=
  | ValueError (msg : string)
  | IndexError
  | AxisError
  | UnboundLocalError (name : string).

Inductive result (A : Type) : Type :=
  | Ok (a : A)
  | Raise (e : exn).
Arguments Ok {A} a.
Arguments Raise {A} e.

(** A computation over a store [S]: the store is threaded through, and is
    still there after an exception. *)
Definition ST (S A : Type) : Type := S → result A * S.

Definition st_ret {S A} (a : A) : ST S A := λ s, (Ok a, s).

Definition st_bind {S A B} (m : ST S A) (k : A → ST S B) : ST S B :=
  λ s, match m s with
       | (Ok a, s') => k a s'
       | (Raise e, s') => (Raise e, s')
       end.

Definition st_raise {S A} (e : exn) : ST S A := λ s, (Raise e, s).

Definition st_lift {S A} (r : result A) : ST S A := λ s, (r, s).

Declare Scope st_scope.
Delimit Scope st_scope with st.
Notation "x <~ m ;; k" := (st_bind m (λ x, k))
  (at level 100, m at next level, right associativity) : st_scope.
Notation "m ;;; k" := (st_bind m (λ _, k))
  (at level 100, right associativity) : st_scope.

(** [for x in l: body x] *)
Fixpoint for_ {S A} (l : list A) (body : A → ST S unit) : ST S unit :=
  match l with
  | [] => st_ret ()
  | x :: l' => st_bind (body x) (λ _, for_ l' body)
  end.

(** Reading a local variable that may not have been assigned. *)
Definition local {A} (name : string) (v : option A) : result A :=
  match v with
  | Some a => Ok a
  | None => Raise (UnboundLocalError name)
  end.

(** ** Python strings *)

(** The double quote and the newline, by their codes. *)
Definition dq : string := String (ascii_of_nat 34) "".
Definition nl : string := String (ascii_of_nat 10) "".

(** A token between double quotes, as the f-strings of the source write it. *)
Definition quoted (s : string) : string := dq +:+ s +:+ dq.

(** [str(n)] and [{n}] in an f-string, for a non-negative [int]. *)
Definition str_int (n : nat) : string := pretty n.

(** [s * n] *)
Fixpoint str_mul (s : string) (n : nat) : string :=
  match n with
  | 0 => ""
  | S n' => s +:+ str_mul s n'
  end.

Fixpoint str_drop (n : nat) (s : string) : string :=
  match n, s with
  | 0, _ => s
  | S _, "" => ""
  | S n', String _ s' => str_drop n' s'
  end.

(** [s.rfind(c)] for a single character: the last index of [c], if any. *)
Fixpoint str_rfind (c : ascii) (s : string) : option nat :=
  match s with
  | "" => None
  | String a s' =>
      match str_rfind c s' with
      | Some i => Some (S i)
      | None => if decide (a = c) then Some 0 else None
      end
  end.

(** [new.join(s)] with [new] also at both ends: what [s.replace('', new)]
    returns. *)
Fixpoint str_intersperse (new s : string) : string :=
  match s with
  | "" => new
  | String a s' => new +:+ String a (str_intersperse new s')
  end.

(** The scan of [s.replace(old, new)] for a non-empty [old]: left to right,
    occurrences do not overlap. [skip] counts the characters of an
    occurrence still to be dropped. *)
Fixpoint str_replace_go (old new : string) (skip : nat) (s : string) : string :=
  match s with
  | "" => ""
  | String a s' =>
      match skip with
      | S k => str_replace_go old new k s'
      | 0 =>
          if String.prefix old s
          then new +:+ str_replace_go old new (String.length old - 1) s'
          else String a (str_replace_go old new 0 s')
      end
  end.

(** [s.replace(old, new)]: every occurrence is replaced. *)
Definition str_replace (old new s : string) : string :=
  match old with
  | "" => str_intersperse new s
  | _ => str_replace_go old new 0 s
  end.

(** ** pathlib, on POSIX path strings in normal form *)

(** [Path(p).absolute()]: an absolute path is kept, a relative one is put
    under the working directory. *)
Definition path_absolute (cwd p : string) : string :=
  if String.prefix "/" p then p else cwd +:+ "/" +:+ p.

(** [Path.name]: the last component. *)
Definition path_name (p : string) : string :=
  match str_rfind "/" p with
  | Some i => str_drop (S i) p
  | None => p
  end.

(** [Path.suffix]: from the last dot of the name, unless the name starts or
    ends with that dot or has none. *)
Definition path_suffix (p : string) : string :=
  let name := path_name p in
  match str_rfind "." name with
  | Some i =>
      if bool_decide (0 < i ∧ i < String.length name - 1)
      then str_drop i name
      else ""
  | None => ""
  end.

(** ** numpy arrays *)

(** [l[i]] for a Python sequence: a negative index counts from the end. *)
Definition normalize_index (len : nat) (i : Z) : option nat :=
  if bool_decide (0 ≤ i < Z.of_nat len)%Z then Some (Z.to_nat i)
  else if bool_decide (- Z.of_nat len ≤ i < 0)%Z
       then Some (Z.to_nat (Z.of_nat len + i))
  else None.

Definition py_index {A} (l : list A) (i : Z) : option A :=
  k ← normalize_index (length l) i; l !! k.

Definition prod_list (l : list nat) : nat := foldr Nat.mul 1 l.

Section Arrays.
Context {elem : Type}.

Record ndarray : Type := NdArray {
  shape : list nat;
  buffer : list elem;
}.

Definition ndim (a : ndarray) : nat := length (shape a).

(** The sub-array at index [i] of axis [k]: the axis is removed, the
    buffer keeps, for each outer index, the block of the inner axes. *)
Definition take_along (a : ndarray) (k i : nat) : ndarray :=
  let outer := prod_list (take k (shape a)) in
  let n := default 0 (shape a !! k) in
  let inner := prod_list (drop (S k) (shape a)) in
  {| shape := delete k (shape a);
     buffer :=
       concat ((λ o, take inner (drop ((o * n + i) * inner) (buffer a)))
                 <$> seq 0 outer) |}.

(** [np.take(a, i, axis=axis)] for an integer [i] in [range]. *)
Definition np_take (a : ndarray) (i : nat) (axis : Z) : result ndarray :=
  match normalize_index (ndim a) axis with
  | None => Raise AxisError
  | Some k =>
      if bool_decide (i < default 0 (shape a !! k))
      then Ok (take_along a k i)
      else Raise IndexError
  end.

(** [a[:]]: the whole array, which needs a first axis to slice. *)
Definition slice_all (a : ndarray) : result ndarray :=
  if bool_decide (ndim a = 0) then Raise IndexError else Ok a.

End Arrays.
Arguments ndarray elem : clear implicits.

(** [np.max(l)] of a list of ranks. *)
Definition np_max (l : list nat) : result nat :=
  match l with
  | [] => Raise (ValueError
            "zero-size array to reduction operation maximum which has no identity")
  | _ => Ok (max_list l)
  end.

(** ** The HDF5 file and the file system *)

Section Exporter.
Context {elem scalar : Type}.
(** [{x}] in an f-string for the time stamps, whatever number type the
    caller passes. *)
Context (str_scalar : scalar → string).
(** The working directory of the process. *)
Context (cwd : string).

(** An open [h5py.File]: the datasets by the name they were created
    under ([Z3/T] is dataset [T] of group [Z3]). *)
Abbreviation h5file := (gmap string (ndarray elem)).

Inductive file : Type :=
  | H5File (h5 : h5file)
  | TextFile (text : string).

Abbreviation filesystem := (gmap string file).

(** [h5.create_dataset(name, data=data)]: h5py refuses a name that is
    taken. h5py reads a name as a path and makes the groups on the way:
    the model keeps the name as the key and is h5py's behaviour for
    variable names that are one link, with no slash of their own, which
    is what the theorems on the written container assume ([no_slash]). A
    variable name with a slash can meet a dataset or a group on its path
    and be refused by h5py where the model stores it. *)
Definition create_dataset (name : string) (data : ndarray elem)
    : ST h5file unit :=
  λ h5, match h5 !! name with
        | Some _ =>
            (Raise (ValueError
               "Unable to create dataset (name already exists)"), h5)
        | None => (Ok (), <[name := data]> h5)
        end.

(** [with h5py.File(filename, 'w') as h5: body]: the file is created
    empty (or truncated), and holds what [body] wrote when the block is
    left, also by an exception. *)
Definition with_h5_file {A} (filename : string) (body : ST h5file A)
    : ST filesystem A :=
  λ fs, let '(r, h5) := body ∅ in (r, <[filename := H5File h5]> fs).

(** [with open(path, 'w') as f: f.writelines(text)]. The file system of
    the model has no directories and no failures: every path can be
    written. *)
Definition write_text (path text : string) : ST filesystem unit :=
  λ fs, (Ok (), <[path := TextFile text]> fs).

(** *** Lines 43-54: ranks and the number of time steps *)

(** The loop of lines 47-50 over [variables.values()]; [nt] is the local
    of that name, unbound until the loop assigns it. *)
Fixpoint nt_loop (max_rank : nat) (taxis : option Z)
    (values : list (ndarray elem)) (nt : option nat)
    : result (option nat) :=
  match values with
  | [] => Ok nt
  | v :: values' =>
      if bool_decide (ndim v = max_rank) then
        match taxis with
        | Some t =>
            match py_index (shape v) t with
            | Some n => nt_loop max_rank taxis values' (Some n)
            | None => Raise IndexError
            end
        | None => nt_loop max_rank taxis values' nt
        end
      else nt_loop max_rank taxis values' nt
  end.

(** The local [nt] after line 50. *)
Definition time_steps (variables : list (string * ndarray elem))
    (taxis : option Z) : result (option nat) :=
  nt_loop (max_list (ndim <$> variables.*2)) taxis variables.*2 None.

Definition rank_message : string :=
  "Max. rank is 4, which describes time resolved 3d data --> (nt, nz, ny, nx).".

(** *** Lines 59-70: the container *)

(** [f'Z{it}/{vname}'] *)
Definition zone_dataset (it : nat) (vname : string) : string :=
  "Z" +:+ str_int it +:+ "/" +:+ vname.

Definition write_container (variables : list (string * ndarray elem))
    (taxis : option Z) (nt : option nat) : ST h5file unit :=
  match taxis with
  | Some t =>
      (nt <~ st_lift (local "nt" nt) ;;
       for_ (seq 0 nt) (λ it,
         for_ variables (λ '(vname, data),
           if bool_decide (ndim data = 4) then
             (_data <~ st_lift (np_take data it t) ;;
              create_dataset (zone_dataset it vname) _data)
           else create_dataset (zone_dataset it vname) data)))%st
  | None =>
      for_ variables (λ '(vname, data),
        (whole <~ st_lift (slice_all data) ;;
         create_dataset vname whole)%st)
  end.

(** *** Lines 72-119: the macro text *)

(** Lines 72-75: [str_zones += f'"/Z{it}/" '] for [it] in [range(nt)]. *)
Definition build_str_zones (nt : nat) : string :=
  foldl (λ str_zones it,
           str_zones +:+ quoted ("/Z" +:+ str_int it +:+ "/") +:+ " ")
        "" (seq 0 nt).

(** Lines 77-79: [str_variable += f'"{vname}" ']. *)
Definition build_str_variable (_varnames : list string) : string :=
  foldl (λ str_variable vname, str_variable +:+ quoted vname +:+ " ")
        "" _varnames.

(** The reader options both macros share (lines 87-97 and 109-119). *)
Definition reader_options : string :=
  "  DATASETREADER = 'HDF5 Loader'" +:+ nl +:+
  "  READDATAOPTION = NEW" +:+ nl +:+
  "  RESETSTYLE = YES" +:+ nl +:+
  "  ASSIGNSTRANDIDS = NO" +:+ nl +:+
  "  INITIALPLOTTYPE = CARTESIAN3D" +:+ nl +:+
  "  INITIALPLOTFIRSTZONEONLY = NO" +:+ nl +:+
  "  ADDZONESTOEXISTINGSTRANDS = NO" +:+ nl +:+
  "  VARLOADMODE = BYNAME" +:+ nl +:+
  "$!THREEDAXIS XDETAIL{VARNUM = 1}" +:+ nl +:+
  "$!THREEDAXIS YDETAIL{VARNUM = 2}" +:+ nl +:+
  "$!THREEDAXIS ZDETAIL{VARNUM = 3}" +:+ nl.

(** Lines 98-102: the strand assignment of the transient macro. *)
Definition strand_command (nt : nat) (tstart dt : scalar) : string :=
  "$!EXTENDEDCOMMAND" +:+ nl +:+
  "   COMMANDPROCESSORID = 'Strand Editor'" +:+ nl +:+
  "COMMAND = 'ZoneSet=1-" +:+ str_int nt
    +:+ ";MultiZonesPerTime=TRUE;ZoneGrouping=Time;"
    +:+ "GroupSize=" +:+ str_int nt +:+ ";AssignStrands=TRUE;StrandValue="
    +:+ str_int nt +:+ ";AssignSolutionTime=TRUE;"
    +:+ "TimeValue=" +:+ str_scalar tstart +:+ ";DeltaValue="
    +:+ str_scalar dt +:+ ";TimeOption=Automatic;'".

(** The end of both [$!READDATASET] lines. *)
Definition loader_end : string :=
  quoted "-K" +:+ " " +:+ quoted "1" +:+ " " +:+ quoted "1" +:+ " "
    +:+ quoted "1" +:+ "'".

(** Lines 82-102. *)
Definition macro_transient (filename : string) (nt nvariables : nat)
    (str_zones str_variable : string) (tstart dt : scalar) : string :=
  let str_filename := str_mul (quoted filename +:+ " ") nt in
  "#!MC 1410" +:+ nl +:+
  "$!READDATASET  '" +:+ quoted "-F" +:+ " " +:+ quoted (str_int nt) +:+ " "
    +:+ str_filename +:+ quoted "-D" +:+ " " +:+ quoted (str_int nt) +:+ " "
    +:+ str_zones +:+ quoted "-G" +:+ " " +:+ quoted (str_int nvariables)
    +:+ " " +:+ str_variable +:+ " " +:+ loader_end +:+ nl +:+
  reader_options +:+
  strand_command nt tstart dt.

(** Lines 105-119. *)
Definition macro_static (filename : string) (nvariables : nat)
    (str_variable : string) : string :=
  "#!MC 1410" +:+ nl +:+
  "$!READDATASET  '" +:+ quoted "-F" +:+ " " +:+ quoted "1" +:+ " "
    +:+ filename +:+ " " +:+ quoted "-D" +:+ " "
    +:+ quoted (str_int nvariables)
    +:+ " " +:+ str_variable +:+ " " +:+ loader_end +:+ nl +:+
  reader_options.

(** Lines 72-119 together. *)
Definition build_macro (filename : string) (_varnames : list string)
    (nvariables : nat) (taxis : option Z) (nt : option nat)
    (tstart dt : scalar) : result string :=
  let str_variable := build_str_variable _varnames in
  match taxis with
  | Some _ =>
      match local "nt" nt with
      | Ok nt =>
          Ok (macro_transient filename nt nvariables (build_str_zones nt)
                str_variable tstart dt)
      | Raise e => Raise e
      end
  | None => Ok (macro_static filename nvariables str_variable)
  end.

(** *** Lines 120-125: the macro file and the returned paths *)

(** Line 122: [filename_str.replace(filename.suffix, '.mcr')]. *)
Definition macro_path (filename : string) : string :=
  str_replace (path_suffix filename) ".mcr" filename.

(** Lines 56-125, once the checks of lines 43-54 have passed; [filename]
    is the absolute path and [nt] the local of lines 47-50. *)
Definition export_from (filename : string)
    (variables : list (string * ndarray elem)) (taxis : option Z)
    (nt : option nat) (tstart dt : scalar) (write_macro : bool)
    : ST filesystem (string * string) :=
  (let nvariables := length variables in
   let _varnames := variables.*1 in
   with_h5_file filename (write_container variables taxis nt) ;;;
   macro_str <~ st_lift
     (build_macro filename _varnames nvariables taxis nt tstart dt) ;;
   macro_filename <~
     (if write_macro then
        let macro_filename := macro_path filename in
        write_text macro_filename macro_str ;;;
        st_ret (Some macro_filename)
      else st_ret None) ;;
   macro_filename <~ st_lift (local "macro_filename" macro_filename) ;;
   st_ret (filename, macro_filename))%st.

(** [create_hdf5(filename, variables, taxis, tstart, dt, write_macro)].
    The result is the pair of paths; [Path(macro_filename)] is returned
    as the string it wraps. *)
Definition create_hdf5 (filename : string)
    (variables : list (string * ndarray elem)) (taxis : option Z)
    (tstart dt : scalar) (write_macro : bool)
    : ST filesystem (string * string) :=
  (let filename := path_absolute cwd filename in
   let all_rank := ndim <$> variables.*2 in
   max_rank <~ st_lift (np_max all_rank) ;;
   nt <~ st_lift (nt_loop max_rank taxis variables.*2 None) ;;
   if bool_decide (4 < max_rank) then st_raise (ValueError rank_message)
   else export_from filename variables taxis nt tstart dt write_macro)%st.

End Exporter.

Arguments file elem : clear implicits.
Arguments H5File {elem} h5.
Arguments TextFile {elem} text.

(** ** Reading the artifacts back *)

(** A dataset name split at its first slash: the link below the root, and
    the path inside that group when there is one. *)
Fixpoint h5_split (name : string) : string * option string :=
  match name with
  | "" => ("", None)
  | String a s =>
      if decide (a = "/"%char) then ("", Some s)
      else let '(g, r) := h5_split s in (String a g, r)
  end.

(** [c in s] *)
Fixpoint str_mem (c : ascii) (s : string) : bool :=
  match s with
  | "" => false
  | String a s' => bool_decide (a = c) || str_mem c s'
  end.

Definition no_slash (s : string) : Prop := str_mem "/" s = false.
Definition no_newline (s : string) : Prop := str_mem (ascii_of_nat 10) s = false.

Section Container.
Context {elem : Type}.

(** The container and the macro text found at a path. *)
Definition container_of (fs : gmap string (file elem)) (path : string)
    : option (gmap string (ndarray elem)) :=
  match fs !! path with
  | Some (H5File h5) => Some h5
  | _ => None
  end.

Definition macro_of (fs : gmap string (file elem)) (path : string)
    : option string :=
  match fs !! path with
  | Some (TextFile text) => Some text
  | _ => None
  end.

(** The groups directly below the root. *)
Definition h5_groups (h5 : gmap string (ndarray elem)) : gset string :=
  set_omap (λ k, let '(g, r) := h5_split k in (λ _, g) <$> r) (dom h5).

(** The datasets directly below the root. *)
Definition h5_root_datasets (h5 : gmap string (ndarray elem))
    : gset string :=
  filter (λ k, (h5_split k).2 = None) (dom h5).

(** The container holds the datasets of [names] in each of the groups
    [Z0] to [Z(nt-1)], and no other. *)
Definition transient_keys (nt : nat) (names : list string)
    (h5 : gmap string (ndarray elem)) : Prop :=
  ∀ key, key ∈ dom h5 ↔
    ∃ it vname, it < nt ∧ vname ∈ names ∧ key = zone_dataset it vname.

(** The names of the datasets directly inside group [g]: a dataset
    further down, in a group of [g], is no member of [g]. *)
Definition h5_members (h5 : gmap string (ndarray elem)) (g : string)
    : gset string :=
  set_omap (λ k, let '(g', r) := h5_split k in
                 if decide (g' = g)
                 then r ≫= (λ n, if str_mem "/" n then None else Some n)
                 else None) (dom h5).
End Container.

(** What line 65 or line 67 stores for [data] at step [it]. *)
Definition zone_data {elem} (t : Z) (it : nat) (data : ndarray elem)
    : result (ndarray elem) :=
  if bool_decide (ndim data = 4) then np_take data it t else Ok data.

(** [data] has at least [nt] entries along the time axis, when the loop of
    lines 61-67 slices it. *)
Definition covers_steps {elem} (t : Z) (nt : nat) (data : ndarray elem)
    : Prop :=
  ndim data = 4 → ∃ n, py_index (shape data) t = Some n ∧ nt ≤ n.

(** [''.join(l)] *)
Definition str_concat (l : list string) : string := foldr String.append "" l.

(** A sequence of loader arguments: each between double quotes and
    followed by one blank. *)
Definition loader_args (tokens : list string) : string :=
  str_concat ((λ t, quoted t +:+ " ") <$> tokens).

(** [text.split('\n')] *)
Fixpoint lines (text : string) : list string :=
  match text with
  | "" => [""]
  | String a s =>
      if decide (a = ascii_of_nat 10) then "" :: lines s
      else match lines s with
           | l :: ls => String a l :: ls
           | [] => [String a ""]
           end
  end.

(** The lines of a macro that start the command [cmd]. *)
Definition command_lines (cmd text : string) : list string :=
  filter (λ l, String.prefix cmd l = true) (lines text).

(** The name of group [it], [f'Z{it}'], and its path, [f'/Z{it}/']. *)
Definition zone_name (it : nat) : string := "Z" +:+ str_int it.
Definition zone_path (it : nat) : string := "/Z" +:+ str_int it +:+ "/".

(** The loader arguments as the macro file shows them, written with the
    characters themselves: code 034 is the double quote and code 010 the
    line feed. *)
Definition in_quotes (s : string) : string :=
  String "034"%char (s +:+ String "034"%char "").

Definition args_text (tokens : list string) : string :=
  str_concat ((λ t, in_quotes t +:+ " ") <$> tokens).

Definition line_feed : string := String "010"%char "".

(** A text written with a backquote for each double quote. *)
Fixpoint lit (s : string) : string :=
  match s with
  | "" => ""
  | String a s' =>
      String (if decide (a = "`"%char) then "034"%char else a) (lit s')
  end.

(** The last arguments of both loader lines, with the quote that closes
    the command. *)
Definition kind_args : string := lit "`-K` `1` `1` `1`'".

(** The arguments of the transient [$!READDATASET] as section 6 of the
    specification lists them: [-F] with the count and the container path
    once per step, [-D] with the count and the group paths, [-G] with the
    number of variables and their names. *)
Definition transient_loader_tokens (filename : string) (nt : nat)
    (names : list string) : list string :=
  ["-F"; str_int nt] ++ replicate nt filename ++
  ["-D"; str_int nt] ++ (zone_path <$> seq 0 nt) ++
  ["-G"; str_int (length names)] ++ names.

(** The arguments of the static [$!READDATASET] after the container path:
    [-D] with the number of variables and their names. *)
Definition static_loader_tokens (names : list string) : list string :=
  ["-D"; str_int (length names)] ++ names.

(** ** Sample inputs *)

Module Sample.
(** [T] of shape (4, 3). *)
Definition T : ndarray Z :=
  NdArray [4; 3] [1; 2; 3; 4; 5; 6; 7; 8; 9; 10; 11; 12]%Z.

(** [X] of shape (3,). *)
Definition X : ndarray Z := NdArray [3] [10; 20; 30]%Z.

(** A time-resolved field of shape (2, 1, 2, 2) and a grid of shape
    (1, 2, 2). *)
Definition U : ndarray Z := NdArray [2; 1; 2; 2] [1; 2; 3; 4; 5; 6; 7; 8]%Z.
Definition V : ndarray Z := NdArray [3; 1; 2; 2] (Z.of_nat <$> seq 0 12).
Definition G : ndarray Z := NdArray [1; 2; 2] [0; 1; 0; 1]%Z.

(** A rank-5 array. *)
Definition R5 : ndarray Z := NdArray [1; 1; 1; 1; 2] [0; 1]%Z.

Definition cwd : string := "/home/user".

(** Integer time stamps, printed as Python prints an [int]. *)
Definition str_scalar : Z → string := pretty.

Definition run := create_hdf5 (elem := Z) str_scalar cwd.
End Sample.
(** ** More to read off the inputs and the example script *)

(** The exception is an [UnboundLocalError]. *)
Definition unbound_local (e : exn) : Prop :=
  match e with
  | UnboundLocalError _ => True
  | _ => False
  end.

(** The buffer of an array has one element per index of its shape. *)
Definition wf_array {elem} (a : ndarray elem) : Prop :=
  length (buffer a) = prod_list (shape a).

(** [s[:n]] *)
Fixpoint str_take (n : nat) (s : string) : string :=
  match n, s with
  | 0, _ => ""
  | S _, "" => ""
  | S n', String a s' => String a (str_take n' s')
  end.

(** The indices at which [old] starts in [s], overlapping ones too. *)
Fixpoint occurrences (old s : string) : list nat :=
  match s with
  | "" => []
  | String _ s' =>
      (if String.prefix old s then [0] else []) ++ (S <$> occurrences old s')
  end.

(** src/examples/create_hdf_for_tecplot.py: six fields of shape
    (7, 21, 41), the grid from [np.meshgrid(z, y, x, indexing='ij')] and
    the velocities from [np.ones], [np.sin] and [np.cos], written as a
    static container. The values are floating point and are left open:
    the script is modelled for any buffers of that shape. *)
Module Example.
Section Script.
Context {elem : Type}.
Context (xx yy zz u v w : list elem).

Definition field (values : list elem) : ndarray elem :=
  NdArray [7; 21; 41] values.

(** [dict(X=xx, Y=yy, Z=zz, x_velocity=u, y_velocity=v, z_velocity=w)] *)
Definition variables : list (string * ndarray elem) :=
  [("X", field xx); ("Y", field yy); ("Z", field zz);
   ("x_velocity", field u); ("y_velocity", field v);
   ("z_velocity", field w)].

End Script.
End Example.

(** * Properties *)

(** ** Strings *)

Lemma str_app_cons a s t : String a s +:+ t = String a (s +:+ t).
Proof. reflexivity. Qed.

Lemma str_app_nil_r s : s +:+ "" = s.
Proof. induction s as [|a s IH]; [done|]. by rewrite str_app_cons, IH. Qed.

Lemma str_app_assoc s t u : (s +:+ t) +:+ u = s +:+ t +:+ u.
Proof.
  induction s as [|a s IH]; [done|]. by rewrite !str_app_cons, IH.
Qed.

Lemma str_concat_cons s l : str_concat (s :: l) = s +:+ str_concat l.
Proof. reflexivity. Qed.

Lemma str_concat_app l k : str_concat (l ++ k) = str_concat l +:+ str_concat k.
Proof.
  induction l as [|s l IH]; [done|].
  by rewrite <-app_comm_cons, !str_concat_cons, IH, str_app_assoc.
Qed.

Lemma loader_args_app l k : loader_args (l ++ k) = loader_args l +:+ loader_args k.
Proof. unfold loader_args. by rewrite fmap_app, str_concat_app. Qed.

Lemma loader_args_cons t l :
  loader_args (t :: l) = quoted t +:+ " " +:+ loader_args l.
Proof.
  unfold loader_args. by rewrite fmap_cons, str_concat_cons, str_app_assoc.
Qed.

(** A [+=] loop builds the concatenation of its pieces. *)
Lemma foldl_str_append {A} (f : A → string) (l : list A) (acc : string) :
  foldl (λ acc x, acc +:+ f x) acc l = acc +:+ str_concat (f <$> l).
Proof.
  revert acc. induction l as [|x l IH]; intros acc; cbn [foldl].
  - by rewrite str_app_nil_r.
  - by rewrite IH, fmap_cons, str_concat_cons, str_app_assoc.
Qed.

Lemma str_mul_replicate s n : str_mul s n = str_concat (replicate n s).
Proof.
  induction n as [|n IH]; [done|].
  cbn [str_mul replicate]. by rewrite str_concat_cons, IH.
Qed.

Lemma build_str_zones_args nt :
  build_str_zones nt = loader_args (zone_path <$> seq 0 nt).
Proof.
  unfold build_str_zones, loader_args.
  rewrite (foldl_str_append
    (λ it, quoted ("/Z" +:+ str_int it +:+ "/") +:+ " ")).
  by rewrite <-list_fmap_compose.
Qed.

Lemma build_str_variable_args names :
  build_str_variable names = loader_args names.
Proof.
  unfold build_str_variable.
  by rewrite (foldl_str_append (λ vname, quoted vname +:+ " ")).
Qed.

Lemma str_filename_args filename nt :
  str_mul (quoted filename +:+ " ") nt = loader_args (replicate nt filename).
Proof.
  rewrite str_mul_replicate. unfold loader_args. by rewrite fmap_replicate.
Qed.

(** *** Characters that do not occur *)

Lemma str_mem_app c s t : str_mem c (s +:+ t) = str_mem c s || str_mem c t.
Proof.
  induction s as [|a s IH]; [done|].
  rewrite str_app_cons. cbn [str_mem]. by rewrite IH, orb_assoc.
Qed.

Lemma pretty_N_go_mem c x s :
  (∀ d, pretty_N_char d ≠ c) → str_mem c s = false →
  str_mem c (pretty_N_go x s) = false.
Proof.
  intros Hc. revert s. induction (N.lt_wf_0 x) as [x _ IH]; intros s Hs.
  destruct (decide (x = 0)%N) as [->|Hx]; [by rewrite pretty_N_go_0|].
  rewrite pretty_N_go_step by lia. apply IH.
  - apply N.div_lt; lia.
  - cbn [str_mem]. by rewrite bool_decide_false, Hs.
Qed.

Lemma str_int_mem c n :
  (∀ d, pretty_N_char d ≠ c) → str_mem c (str_int n) = false.
Proof.
  intros Hc. unfold str_int, pretty, pretty_nat, pretty, pretty_N.
  case_decide.
  - cbn [str_mem]. rewrite bool_decide_false; [done|]. apply (Hc 0%N).
  - by apply pretty_N_go_mem.
Qed.

Lemma digit_not_slash d : pretty_N_char d ≠ "/"%char.
Proof. unfold pretty_N_char. by repeat case_match. Qed.

Lemma digit_not_newline d : pretty_N_char d ≠ ascii_of_nat 10.
Proof. unfold pretty_N_char. by repeat case_match. Qed.

Lemma str_int_no_slash n : no_slash (str_int n).
Proof. apply str_int_mem, digit_not_slash. Qed.

Lemma str_int_no_newline n : no_newline (str_int n).
Proof. apply str_int_mem, digit_not_newline. Qed.

Lemma no_newline_app s t : no_newline s → no_newline t → no_newline (s +:+ t).
Proof. unfold no_newline. intros Hs Ht. by rewrite str_mem_app, Hs, Ht. Qed.

(** *** Dataset names *)

Lemma h5_split_slash g v : no_slash g → h5_split (g +:+ "/" +:+ v) = (g, Some v).
Proof.
  unfold no_slash. induction g as [|a g IH]; intros Hg; [done|].
  cbn [str_mem] in Hg. apply orb_false_elim in Hg as [Ha Hg].
  apply bool_decide_eq_false in Ha.
  rewrite str_app_cons. cbn [h5_split].
  rewrite decide_False by done. by rewrite IH.
Qed.

Lemma h5_split_no_slash s : no_slash s → h5_split s = (s, None).
Proof.
  unfold no_slash. induction s as [|a s IH]; intros Hs; [done|].
  cbn [str_mem] in Hs. apply orb_false_elim in Hs as [Ha Hs].
  apply bool_decide_eq_false in Ha. cbn [h5_split].
  rewrite decide_False by done. by rewrite IH.
Qed.

Lemma zone_name_no_slash it : no_slash (zone_name it).
Proof.
  unfold no_slash, zone_name. rewrite str_mem_app.
  by rewrite (str_int_no_slash it).
Qed.

Lemma zone_name_inj it it' : zone_name it = zone_name it' → it = it'.
Proof.
  unfold zone_name, str_int. intros H. apply (inj _) in H.
  by apply (inj pretty) in H.
Qed.

Lemma zone_dataset_split it vname :
  h5_split (zone_dataset it vname) = (zone_name it, Some vname).
Proof.
  rewrite <-(h5_split_slash _ vname (zone_name_no_slash it)).
  unfold zone_dataset, zone_name. by rewrite str_app_assoc.
Qed.

Lemma zone_dataset_inj it vname it' vname' :
  zone_dataset it vname = zone_dataset it' vname' → it = it' ∧ vname = vname'.
Proof.
  intros H. apply (f_equal h5_split) in H. rewrite !zone_dataset_split in H.
  split; [apply zone_name_inj|]; congruence.
Qed.

(** *** Lines *)

Lemma lines_no_newline s : no_newline s → lines s = [s].
Proof.
  unfold no_newline. induction s as [|a s IH]; intros Hs; [done|].
  cbn [str_mem] in Hs. apply orb_false_elim in Hs as [Ha Hs].
  apply bool_decide_eq_false in Ha. cbn [lines].
  rewrite decide_False by done. by rewrite IH.
Qed.

Lemma lines_app_nl s t : no_newline s → lines (s +:+ nl +:+ t) = s :: lines t.
Proof.
  unfold no_newline. induction s as [|a s IH]; intros Hs; [done|].
  cbn [str_mem] in Hs. apply orb_false_elim in Hs as [Ha Hs].
  apply bool_decide_eq_false in Ha. rewrite str_app_cons. cbn [lines].
  rewrite decide_False by done. by rewrite IH.
Qed.
(** ** Loops *)

(** A loop whose body never raises on the way establishes its invariant:
    [I done s] relates the store to the items handled so far. *)
Lemma for_invariant {S A} (I : list A → S → Prop) (body : A → ST S unit)
    (l : list A) (s : S) :
  I [] s →
  (∀ done x rest s', l = done ++ x :: rest → I done s' →
     ∃ s'', body x s' = (Ok (), s'') ∧ I (done ++ [x]) s'') →
  ∃ s', for_ l body s = (Ok (), s') ∧ I l s'.
Proof.
  intros Hinit Hstep.
  cut (∀ rest done s0, l = done ++ rest → I done s0 →
         ∃ s', for_ rest body s0 = (Ok (), s') ∧ I l s').
  { intros Hgen. by apply (Hgen l [] s). }
  induction rest as [|x rest IH]; intros done s0 Hl Hdone.
  - exists s0. rewrite app_nil_r in Hl. by subst.
  - destruct (Hstep done x rest s0 Hl Hdone) as (s1 & Hbody & Hs1).
    destruct (IH (done ++ [x]) s1) as (s2 & Hrest & Hs2);
      [by rewrite <-app_assoc | done |].
    exists s2. split; [|done]. cbn [for_]. unfold st_bind.
    by rewrite Hbody.
Qed.

Section ContainerProofs.
Context {elem : Type}.
Implicit Types (variables : list (string * ndarray elem)).
Implicit Types (data : ndarray elem).

Lemma py_index_Some {A} (l : list A) (i : Z) (x : A) :
  py_index l i = Some x ↔
  ∃ k, normalize_index (length l) i = Some k ∧ l !! k = Some x.
Proof.
  unfold py_index. destruct (normalize_index (length l) i) as [k|]; cbn.
  - split; [eauto | by intros (? & [= <-] & ?)].
  - split; [done | by intros (? & ? & ?)].
Qed.

Lemma normalize_index_lt len i k :
  normalize_index len i = Some k → k < len.
Proof.
  unfold normalize_index. repeat case_bool_decide; intros [= <-]; lia.
Qed.

Lemma zone_data_covered t nt it data :
  covers_steps t nt data → it < nt → ∃ d, zone_data t it data = Ok d.
Proof.
  unfold zone_data, covers_steps, np_take. intros Hc Hit.
  case_bool_decide as Hr; [|eauto].
  destruct (Hc Hr) as (n & (k & Hk & Hn)%py_index_Some & Hle).
  unfold ndim. rewrite Hk, Hn. cbn. rewrite bool_decide_true by lia. eauto.
Qed.

Lemma create_dataset_fresh (h5 : gmap string (ndarray elem)) name data :
  h5 !! name = None →
  create_dataset name data h5 = (Ok (), <[name := data]> h5).
Proof. unfold create_dataset. by intros ->. Qed.

(** One pass of the inner loop (lines 62-67) adds the group of step
    [it] to a container that has no dataset of that group yet. *)
Lemma write_zone_spec t it variables (h0 : gmap string (ndarray elem)) :
  NoDup variables.*1 →
  (∀ vname, h0 !! zone_dataset it vname = None) →
  (∀ vname data, (vname, data) ∈ variables →
     ∃ d, zone_data t it data = Ok d) →
  ∃ h5,
    for_ variables (λ '(vname, data),
      if bool_decide (ndim data = 4) then
        st_bind (st_lift (np_take data it t))
          (λ _data, create_dataset (zone_dataset it vname) _data)
      else create_dataset (zone_dataset it vname) data) h0 = (Ok (), h5) ∧
    ∀ key d, h5 !! key = Some d ↔
      h0 !! key = Some d ∨
      ∃ vname data, (vname, data) ∈ variables ∧
        key = zone_dataset it vname ∧ zone_data t it data = Ok d.
Proof.
  intros Hnd Hfresh Hok.
  apply (for_invariant (λ done h5, ∀ key d, h5 !! key = Some d ↔
    h0 !! key = Some d ∨
    ∃ vname data, (vname, data) ∈ done ∧
      key = zone_dataset it vname ∧ zone_data t it data = Ok d)).
  { intros key d. split; [eauto|]. intros [?|(? & ? & []%elem_of_nil & _)].
    done. }
  intros done [vname data] rest h5 Hl Hinv.
  assert (h5 !! zone_dataset it vname = None) as Hnone.
  { destruct (h5 !! zone_dataset it vname) as [d|] eqn:Hd; [|done].
    apply Hinv in Hd as [Hd|(v' & a' & Hin & Heq & _)].
    - by rewrite Hfresh in Hd.
    - apply zone_dataset_inj in Heq as [_ <-].
      rewrite Hl, fmap_app, fmap_cons in Hnd.
      apply NoDup_app in Hnd as (_ & Hnd & _).
      destruct (Hnd vname); [|left].
      apply list_elem_of_fmap. by exists (vname, a'). }
  destruct (Hok vname data) as [d Hd].
  { rewrite Hl. apply elem_of_app. right. left. }
  exists (<[zone_dataset it vname := d]> h5). split.
  - unfold zone_data in Hd. case_bool_decide.
    + unfold st_bind, st_lift. rewrite Hd. by apply create_dataset_fresh.
    + injection Hd as <-. by apply create_dataset_fresh.
  - intros key d'. rewrite lookup_insert. case_decide as Hkey.
    + subst key. split.
      * intros [= <-]. right. exists vname, data.
        split; [|done]. apply elem_of_app. right. left.
      * intros [Hh0|(v' & a' & Hin & Heq & Hd')].
        { by rewrite Hfresh in Hh0. }
        apply zone_dataset_inj in Heq as [_ <-].
        apply elem_of_app in Hin as [Hin|Hin%list_elem_of_singleton].
        -- assert (h5 !! zone_dataset it vname = Some d') as Hc; [|congruence].
           apply Hinv. right. by exists vname, a'.
        -- injection Hin as <-. congruence.
    + rewrite Hinv. split.
      * intros [?|(v' & a' & Hin & ? & ?)]; [by left|right].
        exists v', a'. split; [|done]. apply elem_of_app. by left.
      * intros [?|(v' & a' & Hin & -> & ?)]; [by left|].
        apply elem_of_app in Hin as [Hin|Hin%list_elem_of_singleton].
        -- right. by exists v', a'.
        -- injection Hin as -> ->. done.
Qed.

(** Lines 60-67: the transient container has, for every step and every
    variable, the dataset the loop body stores, and nothing else. *)
Lemma write_container_transient_spec t nt variables :
  NoDup variables.*1 →
  Forall (covers_steps t nt) variables.*2 →
  ∃ h5, write_container variables (Some t) (Some nt) ∅ = (Ok (), h5) ∧
    ∀ key d, h5 !! key = Some d ↔
      ∃ it vname data, it < nt ∧ (vname, data) ∈ variables ∧
        key = zone_dataset it vname ∧ zone_data t it data = Ok d.
Proof.
  intros Hnd Hcov. unfold write_container. cbn [local].
  unfold st_bind at 1, st_lift at 1.
  destruct (for_invariant (λ done (h5 : gmap string (ndarray elem)),
    ∀ key d, h5 !! key = Some d ↔
      ∃ it vname data, it ∈ done ∧ (vname, data) ∈ variables ∧
        key = zone_dataset it vname ∧ zone_data t it data = Ok d)
    (λ it, for_ variables (λ '(vname, data),
      if bool_decide (ndim data = 4) then
        st_bind (st_lift (np_take data it t))
          (λ _data, create_dataset (zone_dataset it vname) _data)
      else create_dataset (zone_dataset it vname) data))
    (seq 0 nt) ∅) as (h5 & Hrun & Hh5).
  { intros key d. rewrite lookup_empty. split; [done|].
    by intros (? & ? & ? & []%elem_of_nil & _). }
  { intros done it rest h Hl Hinv.
    assert (it < nt) as Hit.
    { assert (it ∈ seq 0 nt) as Hin%elem_of_seq; [|lia].
      rewrite Hl. apply elem_of_app. right. left. }
    assert (it ∉ done) as Hnew.
    { pose proof (NoDup_seq 0 nt) as Hs. rewrite Hl in Hs.
      apply NoDup_app in Hs as (_ & Hs & _). intros Hin.
      destruct (Hs it Hin). left. }
    destruct (write_zone_spec t it variables h) as (h' & Hzone & Hh');
      [done | | |].
    - intros vname. destruct (h !! zone_dataset it vname) eqn:Hd; [|done].
      apply Hinv in Hd as (it' & v' & a' & Hin & _ & Heq & _).
      apply zone_dataset_inj in Heq as [-> _]. done.
    - intros vname data Hin. apply (zone_data_covered t nt); [|done].
      rewrite Forall_forall in Hcov. apply Hcov.
      apply list_elem_of_fmap. by exists (vname, data).
    - exists h'. split; [done|]. intros key d. rewrite Hh', Hinv. split.
      + intros [(it' & v & a & Hin & ?)|(v & a & ?)].
        * exists it', v, a. split; [|done]. apply elem_of_app. by left.
        * exists it, v, a. split; [|done].
          apply elem_of_app. right. left.
      + intros (it' & v & a & [Hin|Hin%list_elem_of_singleton]%elem_of_app
                    & ?).
        * left. by exists it', v, a.
        * subst it'. right. by exists v, a. }
  exists h5. split; [done|]. intros key d. rewrite Hh5.
  by setoid_rewrite elem_of_seq; split;
    intros (it & v & a & ? & ?); exists it, v, a; (split; [lia|]).
Qed.

(** Lines 68-70: the static container is the variable mapping itself. *)
Lemma write_container_static_spec variables nt :
  NoDup variables.*1 →
  Forall (λ data, ndim data ≠ 0) variables.*2 →
  write_container variables None nt ∅ = (Ok (), list_to_map variables).
Proof.
  intros Hnd Hrank. unfold write_container.
  destruct (for_invariant
    (λ done (h5 : gmap string (ndarray elem)), h5 = list_to_map done)
    (λ '(vname, data), st_bind (st_lift (slice_all data))
       (λ whole, create_dataset vname whole))
    variables ∅) as (h5 & Hrun & ->); [done| |done].
  intros done [vname data] rest h Hl ->.
  assert (vname ∉ done.*1) as Hnew.
  { rewrite Hl, fmap_app, fmap_cons in Hnd.
    apply NoDup_app in Hnd as (_ & Hnd & _). intros Hin.
    destruct (Hnd vname Hin). left. }
  exists (<[vname := data]> (list_to_map done)). split.
  - unfold st_bind, st_lift, slice_all. rewrite bool_decide_false.
    + apply create_dataset_fresh. by apply not_elem_of_list_to_map_1.
    + rewrite Forall_forall in Hrank. apply Hrank.
      apply list_elem_of_fmap. exists (vname, data). split; [done|].
      rewrite Hl. apply elem_of_app. right. left.
  - by rewrite list_to_map_snoc.
Qed.
End ContainerProofs.

(** ** The container read back *)

Section Layout.
Context {elem : Type}.
Implicit Types (variables : list (string * ndarray elem)).

Lemma transient_no_root_dataset nt names (h5 : gmap string (ndarray elem)) :
  transient_keys nt names h5 → h5_root_datasets h5 = ∅.
Proof.
  intros Hk. apply set_eq. intros key. unfold h5_root_datasets.
  rewrite elem_of_filter, elem_of_empty. split; [|done].
  intros [Hs (it & vname & _ & _ & ->)%Hk].
  by rewrite zone_dataset_split in Hs.
Qed.

Lemma transient_groups nt names (h5 : gmap string (ndarray elem)) :
  names ≠ [] → transient_keys nt names h5 →
  h5_groups h5 = list_to_set (zone_name <$> seq 0 nt).
Proof.
  intros Hne Hk. apply set_eq. intros g. unfold h5_groups.
  rewrite elem_of_set_omap, elem_of_list_to_set, list_elem_of_fmap.
  setoid_rewrite elem_of_seq. split.
  - intros (key & (it & vname & Hit & _ & ->)%Hk & Hg).
    rewrite zone_dataset_split in Hg. injection Hg as <-.
    exists it. split; [done | lia].
  - intros (it & -> & Hit). destruct names as [|vname names]; [done|].
    exists (zone_dataset it vname). split.
    + apply Hk. exists it, vname. split; [lia|]. split; [left | done].
    + by rewrite zone_dataset_split.
Qed.

Lemma transient_members nt names (h5 : gmap string (ndarray elem)) it :
  Forall no_slash names → transient_keys nt names h5 → it < nt →
  h5_members h5 (zone_name it) = list_to_set names.
Proof.
  intros Hns Hk Hit. rewrite Forall_forall in Hns.
  apply set_eq. intros v. unfold h5_members.
  rewrite elem_of_set_omap, elem_of_list_to_set. split.
  - intros (key & (it' & vname & _ & Hin & ->)%Hk & Hv).
    rewrite zone_dataset_split in Hv. case_decide; [|done].
    cbn in Hv. rewrite (Hns _ Hin) in Hv. by injection Hv as <-.
  - intros Hin. exists (zone_dataset it v). split.
    + apply Hk. by exists it, v.
    + rewrite zone_dataset_split, decide_True by done.
      cbn. by rewrite (Hns _ Hin).
Qed.

Lemma zone_names_NoDup nt : NoDup (zone_name <$> seq 0 nt).
Proof.
  apply NoDup_fmap_2; [|apply NoDup_seq].
  intros it it'. apply zone_name_inj.
Qed.

Lemma static_root_datasets variables :
  Forall no_slash variables.*1 →
  h5_root_datasets (list_to_map variables : gmap string (ndarray elem))
  = list_to_set variables.*1.
Proof.
  intros Hns. apply set_eq. intros key. unfold h5_root_datasets.
  rewrite elem_of_filter, dom_list_to_map_L. split; [by intros [_ ?]|].
  intros Hin. split; [|done]. apply elem_of_list_to_set in Hin.
  rewrite Forall_forall in Hns. by rewrite (h5_split_no_slash key (Hns _ Hin)).
Qed.

Lemma static_no_group variables :
  Forall no_slash variables.*1 →
  h5_groups (list_to_map variables : gmap string (ndarray elem)) = ∅.
Proof.
  intros Hns. apply set_eq. intros g. unfold h5_groups.
  rewrite elem_of_set_omap, elem_of_empty. split; [|done].
  intros (key & Hin & Hg). rewrite dom_list_to_map_L in Hin.
  apply elem_of_list_to_set in Hin. rewrite Forall_forall in Hns.
  by rewrite (h5_split_no_slash key (Hns _ Hin)) in Hg.
Qed.

(** ** Lines 43-50: the number of steps *)

Lemma nt_loop_static max_rank (values : list (ndarray elem)) nt :
  nt_loop max_rank None values nt = Ok nt.
Proof.
  induction values as [|v values IH]; [done|].
  cbn [nt_loop]. by case_bool_decide.
Qed.

(** Without an array of rank [max_rank] the loop assigns nothing. *)
Lemma nt_loop_lower max_rank taxis (values : list (ndarray elem)) nt :
  Forall (λ v, ndim v ≠ max_rank) values →
  nt_loop max_rank taxis values nt = Ok nt.
Proof.
  induction 1 as [|v values Hv _ IH]; [done|].
  cbn [nt_loop]. by rewrite bool_decide_false.
Qed.

Lemma py_index_axis (v : ndarray elem) t k :
  normalize_index (ndim v) t = Some k → py_index (shape v) t = shape v !! k.
Proof. unfold py_index, ndim. by intros ->. Qed.

Lemma py_index_axis_Some (v : ndarray elem) t k :
  normalize_index (ndim v) t = Some k → is_Some (py_index (shape v) t).
Proof.
  intros Hk. rewrite (py_index_axis v t k Hk).
  apply lookup_lt_is_Some. by apply normalize_index_lt in Hk.
Qed.

(** With a time axis that the arrays of rank [max_rank] have, the loop
    runs through. *)
Lemma nt_loop_valid max_rank t k (values : list (ndarray elem)) nt :
  normalize_index max_rank t = Some k →
  ∃ nt', nt_loop max_rank (Some t) values nt = Ok nt'.
Proof.
  intros Hk. revert nt.
  induction values as [|v values IH]; intros nt; [by eexists|].
  cbn [nt_loop]. case_bool_decide as Hr; [|done].
  rewrite <-Hr in Hk.
  destruct (py_index_axis_Some v t k Hk) as [n ->]. done.
Qed.

(** The last array of rank [max_rank] decides. *)
Lemma nt_loop_last max_rank t n (pre post : list (ndarray elem)) v nt :
  ndim v = max_rank →
  Forall (λ u, ndim u ≠ max_rank) post →
  py_index (shape v) t = Some n →
  nt_loop max_rank (Some t) (pre ++ v :: post) nt = Ok (Some n).
Proof.
  intros Hv Hpost Hn.
  assert (∃ k, normalize_index max_rank t = Some k) as [k Hk].
  { apply py_index_Some in Hn as (k & Hk & _). exists k.
    by rewrite <-Hv. }
  revert nt. induction pre as [|u pre IH]; intros nt.
  - cbn [app nt_loop]. rewrite bool_decide_true by done. rewrite Hn.
    by apply nt_loop_lower.
  - rewrite <-app_comm_cons. cbn [nt_loop]. case_bool_decide as Hr; [|done].
    rewrite <-Hr in Hk. destruct (py_index_axis_Some u t k Hk) as [m ->].
    done.
Qed.

(** The loop yields a count only from an array of rank [max_rank]. *)
Lemma nt_loop_Some_inv max_rank t (values : list (ndarray elem)) nt n :
  nt_loop max_rank (Some t) values nt = Ok (Some n) →
  nt = Some n ∨ ∃ v, v ∈ values ∧ ndim v = max_rank.
Proof.
  revert nt. induction values as [|v values IH]; intros nt.
  - intros [= ->]. by left.
  - cbn [nt_loop]. case_bool_decide as Hr.
    + intros _. right. exists v. split; [left | done].
    + intros [?|(u & ? & ?)]%IH; [by left|].
      right. exists u. split; [by right | done].
Qed.
End Layout.

(** ** The whole call *)

Lemma max_list_bound (l : list nat) (b : nat) :
  Forall (λ n, n ≤ b) l → max_list l ≤ b.
Proof. induction 1 as [|n l Hn _ IH]; simpl; lia. Qed.

Section Run.
Context {elem scalar : Type}.
Context (str_scalar : scalar → string) (cwd : string).
Implicit Types (variables : list (string * ndarray elem)).
Implicit Types (fs : gmap string (file elem)).

Lemma np_max_nonempty variables :
  variables ≠ [] →
  np_max (ndim <$> variables.*2) = Ok (max_list (ndim <$> variables.*2)).
Proof. by destruct variables. Qed.

(** Lines 41-54 when the checks pass: the rest runs with the [nt] of
    the loop. *)
Lemma create_hdf5_checked filename variables taxis nt tstart dt
    write_macro fs :
  variables ≠ [] →
  time_steps variables taxis = Ok nt →
  max_list (ndim <$> variables.*2) ≤ 4 →
  create_hdf5 str_scalar cwd filename variables taxis tstart dt
    write_macro fs
  = export_from str_scalar (path_absolute cwd filename) variables taxis nt
      tstart dt write_macro fs.
Proof.
  intros Hne Hnt Hmax. unfold create_hdf5, st_bind at 1, st_lift at 1.
  rewrite np_max_nonempty by done.
  unfold st_bind at 1, st_lift at 1. unfold time_steps in Hnt. rewrite Hnt.
  by rewrite bool_decide_false by lia.
Qed.

(** Lines 56-125 when the container and the macro text come out. *)
Lemma export_from_run filename variables taxis nt tstart dt write_macro
    fs h5 text :
  write_container variables taxis nt ∅ = (Ok (), h5) →
  build_macro str_scalar filename variables.*1 (length variables) taxis nt
    tstart dt = Ok text →
  export_from str_scalar filename variables taxis nt tstart dt write_macro
    fs
  = if write_macro
    then (Ok (filename, macro_path filename),
          <[macro_path filename := TextFile text]>
            (<[filename := H5File h5]> fs))
    else (Raise (UnboundLocalError "macro_filename"),
          <[filename := H5File h5]> fs).
Proof.
  intros Hw Hm. unfold export_from, st_bind at 1, with_h5_file.
  rewrite Hw. unfold st_bind at 1, st_lift at 1. rewrite Hm.
  by destruct write_macro.
Qed.

Lemma time_steps_nonempty variables t nt :
  time_steps variables (Some t) = Ok (Some nt) → variables ≠ [].
Proof. by intros H ->. Qed.

(** A transient call on inputs that the loops can handle. *)
Lemma create_hdf5_transient_run filename variables t nt tstart dt
    write_macro fs :
  NoDup variables.*1 →
  time_steps variables (Some t) = Ok (Some nt) →
  max_list (ndim <$> variables.*2) ≤ 4 →
  Forall (covers_steps t nt) variables.*2 →
  let f := path_absolute cwd filename in
  ∃ h5,
    (∀ key d, h5 !! key = Some d ↔
       ∃ it vname data, it < nt ∧ (vname, data) ∈ variables ∧
         key = zone_dataset it vname ∧ zone_data t it data = Ok d) ∧
    create_hdf5 str_scalar cwd filename variables (Some t) tstart dt
      write_macro fs
    = if write_macro
      then (Ok (f, macro_path f),
            <[macro_path f :=
                TextFile (macro_transient str_scalar f nt (length variables)
                            (build_str_zones nt)
                            (build_str_variable variables.*1) tstart dt)]>
              (<[f := H5File h5]> fs))
      else (Raise (UnboundLocalError "macro_filename"),
            <[f := H5File h5]> fs).
Proof.
  intros Hnd Hnt Hmax Hcov f.
  destruct (write_container_transient_spec t nt variables Hnd Hcov)
    as (h5 & Hw & Hh5).
  exists h5. split; [done|].
  rewrite (create_hdf5_checked _ _ _ (Some nt))
    by eauto using time_steps_nonempty.
  by apply export_from_run.
Qed.

Lemma transient_keys_of t nt variables (h5 : gmap string (ndarray elem)) :
  Forall (covers_steps t nt) variables.*2 →
  (∀ key d, h5 !! key = Some d ↔
     ∃ it vname data, it < nt ∧ (vname, data) ∈ variables ∧
       key = zone_dataset it vname ∧ zone_data t it data = Ok d) →
  transient_keys nt variables.*1 h5.
Proof.
  intros Hcov Hh5 key. rewrite elem_of_dom. split.
  - intros [d (it & vname & data & Hit & Hin & -> & _)%Hh5].
    exists it, vname. split; [done|]. split; [|done].
    apply list_elem_of_fmap. by exists (vname, data).
  - intros (it & vname & Hit & Hin & ->).
    apply list_elem_of_fmap in Hin as ([vname' data] & -> & Hin).
    destruct (zone_data_covered t nt it data) as [d Hd]; [|done|].
    { rewrite Forall_forall in Hcov. apply Hcov.
      apply list_elem_of_fmap. by exists (vname', data). }
    exists d. apply Hh5. by exists it, vname', data.
Qed.

(** A static call on arrays of rank 1 to 4. *)
Lemma create_hdf5_static_run filename variables tstart dt write_macro fs :
  variables ≠ [] →
  NoDup variables.*1 →
  Forall (λ data, 1 ≤ ndim data ≤ 4) variables.*2 →
  let f := path_absolute cwd filename in
  create_hdf5 str_scalar cwd filename variables None tstart dt
    write_macro fs
  = if write_macro
    then (Ok (f, macro_path f),
          <[macro_path f :=
              TextFile (macro_static f (length variables)
                          (build_str_variable variables.*1))]>
            (<[f := H5File (list_to_map variables)]> fs))
    else (Raise (UnboundLocalError "macro_filename"),
          <[f := H5File (list_to_map variables)]> fs).
Proof.
  intros Hne Hnd Hrank f.
  rewrite (create_hdf5_checked _ _ _ None); [|done| |].
  - apply export_from_run; [|done].
    apply write_container_static_spec; [done|].
    eapply Forall_impl; [exact Hrank|]. cbn. lia.
  - apply nt_loop_static.
  - apply max_list_bound. rewrite Forall_fmap.
    eapply Forall_impl; [exact Hrank|]. cbn. lia.
Qed.
End Run.

(** The f-strings of the source write the quotes that [in_quotes] shows. *)
Lemma quoted_in_quotes s : quoted s = in_quotes s.
Proof. reflexivity. Qed.

Lemma loader_args_text tokens : loader_args tokens = args_text tokens.
Proof. reflexivity. Qed.

Lemma loader_end_text : loader_end = kind_args.
Proof. reflexivity. Qed.

Lemma nl_line_feed : nl = line_feed.
Proof. reflexivity. Qed.

Lemma no_newline_quoted s : no_newline s → no_newline (quoted s).
Proof. intros Hs. by repeat apply no_newline_app. Qed.

Lemma no_newline_loader_args tokens :
  Forall no_newline tokens → no_newline (loader_args tokens).
Proof.
  induction 1 as [|t tokens Ht _ IH]; [done|].
  rewrite loader_args_cons.
  apply no_newline_app; [by apply no_newline_quoted|].
  by apply no_newline_app.
Qed.

(** The loops of lines 72-82 write the loader arguments in order. *)
Lemma macro_transient_tokens {scalar} (str_scalar : scalar → string)
    filename nt names tstart dt :
  macro_transient str_scalar filename nt (length names) (build_str_zones nt)
    (build_str_variable names) tstart dt
  = "#!MC 1410" +:+ nl +:+ "$!READDATASET  '"
      +:+ loader_args (transient_loader_tokens filename nt names)
      +:+ " " +:+ loader_end +:+ nl
      +:+ reader_options +:+ strand_command str_scalar nt tstart dt.
Proof.
  unfold macro_transient, transient_loader_tokens.
  rewrite str_filename_args, build_str_zones_args, build_str_variable_args.
  rewrite !loader_args_app, !loader_args_cons. cbn [loader_args fmap list_fmap
    str_concat foldr].
  by rewrite !str_app_assoc.
Qed.

Lemma macro_static_tokens filename names :
  macro_static filename (length names) (build_str_variable names)
  = "#!MC 1410" +:+ nl +:+
    ("$!READDATASET  '" +:+ quoted "-F" +:+ " " +:+ quoted "1" +:+ " "
       +:+ filename +:+ " " +:+ loader_args (static_loader_tokens names)
       +:+ " " +:+ loader_end)
    +:+ nl +:+ reader_options.
Proof.
  unfold macro_static, static_loader_tokens.
  rewrite build_str_variable_args.
  rewrite !loader_args_app, !loader_args_cons. cbn [loader_args fmap list_fmap
    str_concat foldr].
  by rewrite !str_app_assoc.
Qed.

Lemma lookup_skip {A} (l k : list A) i : (l ++ k) !! (length l + i) = k !! i.
Proof. rewrite lookup_app_r by lia. f_equal. lia. Qed.

Lemma transient_loader_tokens_lookup filename nt names :
  let tokens := transient_loader_tokens filename nt names in
  tokens !! 0 = Some "-F" ∧
  tokens !! 1 = Some (str_int nt) ∧
  Forall (λ i, tokens !! (2 + i) = Some filename) (seq 0 nt) ∧
  tokens !! (2 + nt) = Some "-D" ∧
  tokens !! (3 + nt) = Some (str_int nt) ∧
  Forall (λ i, tokens !! (4 + nt + i) = Some (zone_path i)) (seq 0 nt) ∧
  tokens !! (4 + nt + nt) = Some "-G".
Proof.
  intros tokens.
  assert (∀ i, tokens !! (2 + i)
               = (replicate nt filename ++ ["-D"; str_int nt] ++
                  (zone_path <$> seq 0 nt) ++
                  ["-G"; str_int (length names)] ++ names) !! i) as H2.
  { done. }
  assert (∀ i, tokens !! (2 + nt + i)
               = (["-D"; str_int nt] ++ (zone_path <$> seq 0 nt) ++
                  ["-G"; str_int (length names)] ++ names) !! i) as H3.
  { intros i. rewrite <-Nat.add_assoc, H2.
    rewrite <-(length_replicate nt filename) at 1. apply lookup_skip. }
  assert (∀ i, tokens !! (4 + nt + i)
               = ((zone_path <$> seq 0 nt) ++
                  ["-G"; str_int (length names)] ++ names) !! i) as H4.
  { intros i. replace (4 + nt + i) with (2 + nt + (2 + i)) by lia.
    by rewrite H3. }
  split; [done|]. split; [done|]. split.
  { apply Forall_forall. intros i [_ Hi]%elem_of_seq. rewrite H2.
    rewrite lookup_app_l by (rewrite length_replicate; lia).
    apply lookup_replicate_2. lia. }
  split. { rewrite <-(Nat.add_0_r (2 + nt)). by rewrite H3. }
  split. { replace (3 + nt) with (2 + nt + 1) by lia. by rewrite H3. }
  split.
  { apply Forall_forall. intros i [_ Hi]%elem_of_seq. rewrite H4.
    rewrite lookup_app_l by (rewrite length_fmap, length_seq; lia).
    rewrite list_lookup_fmap, lookup_seq_lt by lia. done. }
  rewrite H4, lookup_app_r by (rewrite length_fmap, length_seq; lia).
  by rewrite length_fmap, length_seq, Nat.sub_diag.
Qed.

(** ** The claims *)

Section Claims.
Context {elem scalar : Type}.
Context (str_scalar : scalar → string) (cwd : string).
Implicit Types (variables : list (string * ndarray elem)).
Implicit Types (fs : gmap string (file elem)).

(** C3: when some variable has a rank above 4 the call raises before
    any file is touched: the file system is as it was, no container has
    been created. With no time axis, or one that the arrays of maximal
    rank have, the exception is the [ValueError] of line 53. *)
Theorem rank_above_4_rejected filename variables taxis tstart dt
    write_macro fs :
  Exists (λ data, 4 < ndim data) variables.*2 →
  (∃ e, create_hdf5 str_scalar cwd filename variables taxis tstart dt
          write_macro fs = (Raise e, fs)) ∧
  ((∀ t, taxis = Some t →
      is_Some (normalize_index (max_list (ndim <$> variables.*2)) t)) →
   create_hdf5 str_scalar cwd filename variables taxis tstart dt
     write_macro fs
   = (Raise (ValueError rank_message), fs)).
Proof.
  intros Hrank.
  assert (variables ≠ []) as Hne by (by intros ->; inversion Hrank).
  assert (4 < max_list (ndim <$> variables.*2)) as Hmax.
  { apply Exists_exists in Hrank as (data & Hin & Hdata).
    eapply Nat.lt_le_trans; [exact Hdata|].
    apply max_list_elem_of_le, list_elem_of_fmap. by exists data. }
  assert (create_hdf5 str_scalar cwd filename variables taxis tstart dt
            write_macro fs
          = match nt_loop (max_list (ndim <$> variables.*2)) taxis
                    variables.*2 None with
            | Ok _ => (Raise (ValueError rank_message), fs)
            | Raise e => (Raise e, fs)
            end) as ->.
  { unfold create_hdf5, st_bind at 1, st_lift at 1.
    rewrite np_max_nonempty by done.
    unfold st_bind at 1, st_lift at 1.
    destruct (nt_loop _ _ _ _); [|done].
    by rewrite bool_decide_true by done. }
  destruct (nt_loop (max_list (ndim <$> variables.*2)) taxis
              variables.*2 None) as [nt|e] eqn:Hnt.
  - split; [by eexists | done].
  - split; [by eexists|]. intros Haxis. exfalso.
    destruct taxis as [t|].
    + destruct (Haxis t eq_refl) as [k Hk].
      destruct (nt_loop_valid _ t k variables.*2 None Hk) as [nt Hok].
      congruence.
    + rewrite nt_loop_static in Hnt. discriminate Hnt.
Qed.

(** C4: a transient call with [nt] steps leaves a container with no
    dataset at top level and exactly the [nt] groups [Z0] to [Z(nt-1)];
    each group holds exactly one dataset per variable, under the name of
    the variable, for names that are one link each. The call returns
    both paths when the macro is written. *)
Theorem transient_container_layout filename variables t nt tstart dt
    write_macro fs :
  NoDup variables.*1 →
  Forall no_slash variables.*1 →
  time_steps variables (Some t) = Ok (Some nt) →
  max_list (ndim <$> variables.*2) ≤ 4 →
  Forall (covers_steps t nt) variables.*2 →
  macro_path (path_absolute cwd filename) ≠ path_absolute cwd filename →
  let f := path_absolute cwd filename in
  let out := create_hdf5 str_scalar cwd filename variables (Some t)
               tstart dt write_macro fs in
  ∃ h5,
    (if write_macro then out.1 = Ok (f, macro_path f) else True) ∧
    container_of out.2 f = Some h5 ∧
    h5_root_datasets h5 = ∅ ∧
    h5_groups h5 = list_to_set (zone_name <$> seq 0 nt) ∧
    size (h5_groups h5) = nt ∧
    Forall (λ it,
      h5_members h5 (zone_name it) = list_to_set variables.*1 ∧
      size (h5_members h5 (zone_name it)) = length variables ∧
      Forall (λ vname, is_Some (h5 !! zone_dataset it vname))
        variables.*1)
      (seq 0 nt).
Proof.
  intros Hnd Hns Hnt Hmax Hcov Hmp f out.
  destruct (create_hdf5_transient_run str_scalar cwd filename variables t
              nt tstart dt write_macro fs Hnd Hnt Hmax Hcov)
    as (h5 & Hh5 & Hrun).
  pose proof (transient_keys_of t nt variables h5 Hcov Hh5) as Hkeys.
  assert (variables.*1 ≠ []) as Hne.
  { pose proof (time_steps_nonempty _ _ _ Hnt). by destruct variables. }
  exists h5. subst out. rewrite Hrun. fold f.
  split; [by destruct write_macro|]. split.
  { unfold container_of. destruct write_macro; cbn [snd].
    - rewrite lookup_insert_ne by done. by rewrite lookup_insert_eq.
    - by rewrite lookup_insert_eq. }
  split; [by eapply transient_no_root_dataset|].
  split; [by eapply transient_groups|]. split.
  { rewrite (transient_groups nt variables.*1) by done.
    rewrite size_list_to_set by apply zone_names_NoDup.
    by rewrite length_fmap, length_seq. }
  apply Forall_forall. intros it [_ Hit]%elem_of_seq.
  rewrite (transient_members nt variables.*1) by (done || lia).
  split; [done|]. split.
  - rewrite size_list_to_set by done. by rewrite length_fmap.
  - apply Forall_forall. intros vname Hin. apply elem_of_dom, Hkeys.
    exists it, vname. split; [lia | done].
Qed.

(** C5: a static call on a non-empty variable set of ranks 1 to 4 leaves
    a container that is the variable mapping itself: no group, one
    top-level dataset per variable under the name of the variable, with
    the input array as its content. *)
Theorem static_container_contents filename variables tstart dt
    write_macro fs :
  variables ≠ [] →
  NoDup variables.*1 →
  Forall (λ data, 1 ≤ ndim data ≤ 4) variables.*2 →
  Forall no_slash variables.*1 →
  macro_path (path_absolute cwd filename) ≠ path_absolute cwd filename →
  let f := path_absolute cwd filename in
  let out := create_hdf5 str_scalar cwd filename variables None
               tstart dt write_macro fs in
  ∃ h5,
    (if write_macro then out.1 = Ok (f, macro_path f) else True) ∧
    container_of out.2 f = Some h5 ∧
    h5_groups h5 = ∅ ∧
    h5_root_datasets h5 = list_to_set variables.*1 ∧
    size (h5_root_datasets h5) = length variables ∧
    Forall (λ '(vname, data), h5 !! vname = Some data) variables.
Proof.
  intros Hne Hnd Hrank Hns Hmp f out.
  exists (list_to_map variables). subst out.
  rewrite (create_hdf5_static_run str_scalar cwd) by done. fold f.
  split; [by destruct write_macro|]. split.
  { unfold container_of. destruct write_macro; cbn [snd].
    - rewrite lookup_insert_ne by done. by rewrite lookup_insert_eq.
    - by rewrite lookup_insert_eq. }
  split; [by apply static_no_group|].
  split; [by apply static_root_datasets|]. split.
  { rewrite static_root_datasets by done.
    rewrite size_list_to_set by done. by rewrite length_fmap. }
  apply Forall_forall. intros [vname data] Hin.
  by apply elem_of_list_to_map_1.
Qed.
(** C7: the macro of a transient call with [nt] steps passes the loader
    [-F] with the count [nt] and the container path [nt] times, then
    [-D] with the count [nt] and the group paths [/Z0/] to [/Z(nt-1)/]
    by increasing index, then [-G]: each argument between double quotes
    and followed by one blank. *)
Theorem transient_macro_text filename variables t nt tstart dt fs :
  NoDup variables.*1 →
  Forall no_slash variables.*1 →
  time_steps variables (Some t) = Ok (Some nt) →
  max_list (ndim <$> variables.*2) ≤ 4 →
  Forall (covers_steps t nt) variables.*2 →
  let f := path_absolute cwd filename in
  let out := create_hdf5 str_scalar cwd filename variables (Some t)
               tstart dt true fs in
  let tokens := transient_loader_tokens f nt variables.*1 in
  out.1 = Ok (f, macro_path f) ∧
  macro_of out.2 (macro_path f)
  = Some ("#!MC 1410" +:+ line_feed +:+ "$!READDATASET  '"
            +:+ args_text tokens +:+ " " +:+ kind_args +:+ line_feed
            +:+ reader_options +:+ strand_command str_scalar nt tstart dt) ∧
  tokens !! 0 = Some "-F" ∧
  tokens !! 1 = Some (str_int nt) ∧
  Forall (λ i, tokens !! (2 + i) = Some f) (seq 0 nt) ∧
  tokens !! (2 + nt) = Some "-D" ∧
  tokens !! (3 + nt) = Some (str_int nt) ∧
  Forall (λ i, tokens !! (4 + nt + i) = Some (zone_path i)) (seq 0 nt) ∧
  tokens !! (4 + nt + nt) = Some "-G".
Proof.
  intros Hnd Hns Hnt Hmax Hcov f out tokens.
  destruct (create_hdf5_transient_run str_scalar cwd filename variables t
              nt tstart dt true fs Hnd Hnt Hmax Hcov)
    as (h5 & _ & Hrun).
  subst out. rewrite Hrun. fold f. split; [done|]. split.
  - unfold macro_of. cbn [snd]. rewrite lookup_insert_eq.
    rewrite <-(length_fmap fst variables).
    rewrite macro_transient_tokens.
    by rewrite loader_args_text, loader_end_text, nl_line_feed.
  - apply transient_loader_tokens_lookup.
Qed.

(** C8: the macro of a static call has exactly one line that starts
    with [$!READDATASET]; after the container path it passes [-D] with
    the number of variables and then the names of the variables in the
    order of the mapping, each argument between double quotes and
    followed by one blank. *)
Theorem static_macro_text filename variables tstart dt fs :
  variables ≠ [] →
  NoDup variables.*1 →
  Forall no_slash variables.*1 →
  Forall (λ data, 1 ≤ ndim data ≤ 4) variables.*2 →
  no_newline (path_absolute cwd filename) →
  Forall no_newline variables.*1 →
  let f := path_absolute cwd filename in
  let out := create_hdf5 str_scalar cwd filename variables None
               tstart dt true fs in
  let line :=
    "$!READDATASET  '" +:+ in_quotes "-F" +:+ " " +:+ in_quotes "1" +:+ " "
      +:+ f +:+ " "
      +:+ args_text (["-D"; str_int (length variables)] ++ variables.*1)
      +:+ " " +:+ kind_args in
  ∃ text,
    out.1 = Ok (f, macro_path f) ∧
    macro_of out.2 (macro_path f) = Some text ∧
    lines text = "#!MC 1410" :: line :: lines reader_options ∧
    command_lines "$!READDATASET" text = [line].
Proof.
  intros Hne Hnd Hns Hrank Hf Hnames f out line.
  assert (line
          = "$!READDATASET  '" +:+ quoted "-F" +:+ " " +:+ quoted "1" +:+ " "
              +:+ f +:+ " "
              +:+ loader_args
                    (["-D"; str_int (length variables)] ++ variables.*1)
              +:+ " " +:+ loader_end) as Hline' by reflexivity.
  clearbody line. subst line.
  set (line := "$!READDATASET  '" +:+ quoted "-F" +:+ _).
  subst out. rewrite (create_hdf5_static_run str_scalar cwd) by done.
  fold f.
  assert (macro_static f (length variables)
            (build_str_variable variables.*1)
          = "#!MC 1410" +:+ nl +:+ line +:+ nl +:+ reader_options)
    as Htext.
  { rewrite <-(length_fmap fst variables), macro_static_tokens.
    unfold static_loader_tokens. by rewrite length_fmap. }
  rewrite Htext. eexists. split; [done|]. split.
  { unfold macro_of. cbn [snd]. by rewrite lookup_insert_eq. }
  assert (no_newline line) as Hline.
  { subst line.
    repeat (apply no_newline_loader_args || apply no_newline_quoted
            || apply no_newline_app); try done.
    apply Forall_app. split; [|done].
    repeat constructor. apply str_int_no_newline. }
  assert (lines ("#!MC 1410" +:+ nl +:+ line +:+ nl +:+ reader_options)
          = "#!MC 1410" :: line :: lines reader_options) as Hlines.
  { rewrite lines_app_nl by done. by rewrite lines_app_nl. }
  split; [done|]. unfold command_lines. rewrite Hlines.
  rewrite filter_cons_False by (by vm_compute).
  rewrite filter_cons_True by done.
  f_equal.
Qed.

(** C9: a static call does not depend on the time stamps: whatever
    [tstart] and [dt] are, the result and the files are the same. *)
Theorem static_ignores_time filename variables tstart dt tstart' dt'
    write_macro fs :
  create_hdf5 str_scalar cwd filename variables None tstart dt
    write_macro fs
  = create_hdf5 str_scalar cwd filename variables None tstart' dt'
      write_macro fs.
Proof. reflexivity. Qed.

(** C10: in a transient call the number of steps is the length along
    the time axis of the last variable of maximal rank; the variables
    before it, of maximal rank or not, have no say. That number is the
    [nt] the container and the macro are written with. *)
Theorem steps_from_last_max_rank filename pre vname v post t n tstart dt
    write_macro fs :
  Forall (λ u, ndim u ≤ ndim v) pre.*2 →
  Forall (λ u, ndim u < ndim v) post.*2 →
  py_index (shape v) t = Some n →
  let variables := pre ++ (vname, v) :: post in
  time_steps variables (Some t) = Ok (Some n) ∧
  (∀ pre', Forall (λ u, ndim u ≤ ndim v) pre'.*2 →
     time_steps (pre' ++ (vname, v) :: post) (Some t) = Ok (Some n)) ∧
  (ndim v ≤ 4 →
   create_hdf5 str_scalar cwd filename variables (Some t) tstart dt
     write_macro fs
   = export_from str_scalar (path_absolute cwd filename) variables
       (Some t) (Some n) tstart dt write_macro fs).
Proof.
  intros Hpre Hpost Hn variables.
  assert (∀ pre', Forall (λ u, ndim u ≤ ndim v) pre'.*2 →
            max_list (ndim <$> (pre' ++ (vname, v) :: post).*2) = ndim v)
    as Hmax.
  { intros pre' Hpre'. apply Nat.le_antisymm.
    - apply max_list_bound. rewrite Forall_fmap, fmap_app, fmap_cons.
      apply Forall_app. split; [done|]. constructor; [cbn; lia|].
      eapply Forall_impl; [exact Hpost|]. cbn. lia.
    - apply max_list_elem_of_le. rewrite fmap_app, fmap_cons, fmap_app.
      apply elem_of_app. right. left. }
  assert (∀ pre', Forall (λ u, ndim u ≤ ndim v) pre'.*2 →
            time_steps (pre' ++ (vname, v) :: post) (Some t) = Ok (Some n))
    as Hsteps.
  { intros pre' Hpre'. unfold time_steps. rewrite (Hmax pre' Hpre').
    rewrite fmap_app, fmap_cons. apply nt_loop_last; [done| |done].
    eapply Forall_impl; [exact Hpost|]. cbn. lia. }
  split; [by apply Hsteps|]. split; [done|]. intros Hv.
  apply create_hdf5_checked.
  - subst variables. by destruct pre.
  - by apply Hsteps.
  - subst variables. by rewrite Hmax.
Qed.
End Claims.

(** What a transient container stores under each name, for names that
    are one link each: the slice of a rank-4 array, any other array
    whole. *)
Lemma transient_datasets {elem scalar} (str_scalar : scalar → string)
    (cwd filename : string) (variables : list (string * ndarray elem))
    t nt tstart dt write_macro (fs : gmap string (file elem)) :
  NoDup variables.*1 →
  Forall no_slash variables.*1 →
  time_steps variables (Some t) = Ok (Some nt) →
  max_list (ndim <$> variables.*2) ≤ 4 →
  Forall (covers_steps t nt) variables.*2 →
  macro_path (path_absolute cwd filename) ≠ path_absolute cwd filename →
  ∃ h5,
    container_of (create_hdf5 str_scalar cwd filename variables (Some t)
                    tstart dt write_macro fs).2
      (path_absolute cwd filename) = Some h5 ∧
    ∀ it vname data, it < nt → (vname, data) ∈ variables →
      ∃ d, h5 !! zone_dataset it vname = Some d ∧
           (if bool_decide (ndim data = 4) then np_take data it t = Ok d
            else d = data).
Proof.
  intros Hnd Hns Hnt Hmax Hcov Hmp.
  destruct (create_hdf5_transient_run str_scalar cwd filename variables t
              nt tstart dt write_macro fs Hnd Hnt Hmax Hcov)
    as (h5 & Hh5 & Hrun).
  exists h5. rewrite Hrun. split.
  { unfold container_of. destruct write_macro; cbn [snd].
    - rewrite lookup_insert_ne by done. by rewrite lookup_insert_eq.
    - by rewrite lookup_insert_eq. }
  intros it vname data Hit Hin.
  destruct (zone_data_covered t nt it data) as [d Hd]; [|done|].
  { rewrite Forall_forall in Hcov. apply Hcov.
    apply list_elem_of_fmap. by exists (vname, data). }
  exists d. split.
  - apply Hh5. by exists it, vname, data.
  - unfold zone_data in Hd. case_bool_decide; [done | congruence].
Qed.

(** ** The code on sample inputs *)

(** C1: for [T] of shape (4, 3) and the time axis 0 the call writes the
    groups [Z0] to [Z3], and each holds the whole array [T] of shape
    (4, 3): line 63 slices arrays of rank 4 only, so an array whose rank
    is the maximal rank 2 is not sliced. The slice at step 0 would be the
    array of shape (3,). *)
Theorem rank2_time_axis_not_sliced :
  let out := Sample.run "T.h5" [("T", Sample.T)] (Some 0%Z) 0%Z 1%Z true ∅ in
  out.1 = Ok ("/home/user/T.h5", "/home/user/T.mcr") ∧
  container_of out.2 "/home/user/T.h5"
  = Some (list_to_map [("Z0/T", Sample.T); ("Z1/T", Sample.T);
                       ("Z2/T", Sample.T); ("Z3/T", Sample.T)]) ∧
  shape Sample.T = [4; 3] ∧
  np_take Sample.T 0 0 = Ok (NdArray [3] [1; 2; 3]%Z).
Proof. vm_compute. by repeat split. Qed.

(** C2: with [write_macro=False] no call returns: whatever the inputs,
    the result is an exception. On valid static inputs it is the
    [UnboundLocalError] of line 125, raised after the container has been
    written. *)
Theorem write_macro_false_raises :
  (∀ (elem scalar : Type) (str_scalar : scalar → string) (cwd : string)
     filename (variables : list (string * ndarray elem)) taxis tstart dt
     (fs : gmap string (file elem)),
     ∃ e, (create_hdf5 str_scalar cwd filename variables taxis tstart dt
             false fs).1 = Raise e) ∧
  Sample.run "X.h5" [("X", Sample.X)] None 0%Z 1%Z false ∅
  = (Raise (UnboundLocalError "macro_filename"),
     {[ "/home/user/X.h5" := H5File {[ "X" := Sample.X ]} ]}).
Proof.
  split; [|by vm_compute].
  intros. unfold create_hdf5, export_from, st_bind, st_lift, st_raise,
    st_ret, with_h5_file.
  repeat (case_match; simplify_eq/=); eauto.
Qed.

(** C6: for the container [/tmp/run.h5.h5] the macro is written to
    [/tmp/run.mcr.mcr], not to [/tmp/run.h5.mcr]: line 122 replaces every
    occurrence of the suffix in the path, not the suffix alone. For
    [/data.h5/run.h5] the directory is rewritten too. *)
Theorem macro_path_replaces_every_occurrence :
  let out :=
    Sample.run "/tmp/run.h5.h5" [("X", Sample.X)] None 0%Z 1%Z true ∅ in
  path_suffix "/tmp/run.h5.h5" = ".h5" ∧
  macro_path "/tmp/run.h5.h5" = "/tmp/run.mcr.mcr" ∧
  out.1 = Ok ("/tmp/run.h5.h5", "/tmp/run.mcr.mcr") ∧
  macro_of out.2 "/tmp/run.mcr.mcr"
  = Some (macro_static "/tmp/run.h5.h5" 1 (quoted "X" +:+ " ")) ∧
  macro_of out.2 "/tmp/run.h5.mcr" = None ∧
  macro_path "/data.h5/run.h5" = "/data.mcr/run.mcr".
Proof. vm_compute. by repeat split. Qed.

(** ** The theorems at sample inputs *)

(** A rank-5 array is refused and nothing is written. *)
Lemma rank_above_4_rejected_sample :
  Sample.run "R.h5" [("R", Sample.R5)] None 0%Z 1%Z true ∅
  = (Raise (ValueError rank_message), ∅).
Proof.
  apply (rank_above_4_rejected Sample.str_scalar Sample.cwd).
  - apply Exists_cons_hd. vm_compute. lia.
  - intros t H. discriminate H.
Defined.

(** With a time axis that a rank-5 array does not have, the exception is
    the [IndexError] of line 50; still nothing is written. *)
Lemma rank_above_4_bad_axis_sample :
  Sample.run "R.h5" [("R", Sample.R5)] (Some 7%Z) 0%Z 1%Z true ∅
  = (Raise IndexError, ∅).
Proof. reflexivity. Qed.

(** A field of shape (2, 1, 2, 2) with a grid of shape (1, 2, 2): two
    groups, each with the two datasets. *)
Lemma transient_container_layout_sample :
  ∃ h5,
    container_of
      (Sample.run "flow.h5" [("U", Sample.U); ("G", Sample.G)] (Some 0%Z)
         0%Z 1%Z true ∅).2 "/home/user/flow.h5" = Some h5 ∧
    h5_groups h5 = {[ "Z0"; "Z1" ]} ∧
    h5_members h5 "Z1" = {[ "U"; "G" ]}.
Proof.
  destruct (transient_container_layout Sample.str_scalar Sample.cwd
              "flow.h5" [("U", Sample.U); ("G", Sample.G)] 0%Z 2 0%Z 1%Z
              true ∅)
    as (h5 & _ & Hc & _ & Hg & _ & Hm).
  - apply (bool_decide_unpack _). vm_compute. exact I.
  - repeat constructor.
  - reflexivity.
  - vm_compute. lia.
  - repeat constructor.
    + intros _. exists 2. split; [reflexivity | lia].
    + intros H. discriminate H.
  - intros H. vm_compute in H. discriminate H.
  - exists h5. split; [exact Hc|]. split.
    + rewrite Hg. vm_compute. reflexivity.
    + apply Forall_cons_1 in Hm as [_ Hm].
      apply Forall_cons_1 in Hm as [(Hm & _) _].
      etrans; [exact Hm|]. vm_compute. reflexivity.
Defined.

(** [X] of shape (3,): one dataset [X] at top level. *)
Lemma static_container_contents_sample :
  ∃ h5,
    container_of
      (Sample.run "X.h5" [("X", Sample.X)] None 0%Z 1%Z true ∅).2
      "/home/user/X.h5" = Some h5 ∧
    h5_root_datasets h5 = {[ "X" ]} ∧
    h5 !! "X" = Some Sample.X.
Proof.
  destruct (static_container_contents Sample.str_scalar Sample.cwd
              "X.h5" [("X", Sample.X)] 0%Z 1%Z true ∅)
    as (h5 & _ & Hc & _ & Hr & _ & Hd).
  - discriminate.
  - apply (bool_decide_unpack _). vm_compute. exact I.
  - repeat constructor; vm_compute; lia.
  - repeat constructor.
  - intros H. vm_compute in H. discriminate H.
  - exists h5. split; [exact Hc|]. split.
    + rewrite Hr. vm_compute. reflexivity.
    + by apply Forall_cons_1 in Hd as [Hd _].
Defined.

(** [T] of shape (4, 3) with the time axis 0: the loader gets the count 4
    and the paths [/Z0/] to [/Z3/]. The macro file character by
    character, with a backquote standing for each double quote. *)
Lemma transient_macro_text_sample :
  macro_of
    (Sample.run "T.h5" [("T", Sample.T)] (Some 0%Z) 0%Z 1%Z true ∅).2
    "/home/user/T.mcr"
  = Some (lit
      ("#!MC 1410" +:+ line_feed +:+
       "$!READDATASET  '`-F` `4` `/home/user/T.h5` `/home/user/T.h5` "
         +:+ "`/home/user/T.h5` `/home/user/T.h5` `-D` `4` `/Z0/` `/Z1/` "
         +:+ "`/Z2/` `/Z3/` `-G` `1` `T`  `-K` `1` `1` `1`'" +:+ line_feed +:+
       "  DATASETREADER = 'HDF5 Loader'" +:+ line_feed +:+
       "  READDATAOPTION = NEW" +:+ line_feed +:+
       "  RESETSTYLE = YES" +:+ line_feed +:+
       "  ASSIGNSTRANDIDS = NO" +:+ line_feed +:+
       "  INITIALPLOTTYPE = CARTESIAN3D" +:+ line_feed +:+
       "  INITIALPLOTFIRSTZONEONLY = NO" +:+ line_feed +:+
       "  ADDZONESTOEXISTINGSTRANDS = NO" +:+ line_feed +:+
       "  VARLOADMODE = BYNAME" +:+ line_feed +:+
       "$!THREEDAXIS XDETAIL{VARNUM = 1}" +:+ line_feed +:+
       "$!THREEDAXIS YDETAIL{VARNUM = 2}" +:+ line_feed +:+
       "$!THREEDAXIS ZDETAIL{VARNUM = 3}" +:+ line_feed +:+
       "$!EXTENDEDCOMMAND" +:+ line_feed +:+
       "   COMMANDPROCESSORID = 'Strand Editor'" +:+ line_feed +:+
       "COMMAND = 'ZoneSet=1-4;MultiZonesPerTime=TRUE;ZoneGrouping=Time;"
         +:+ "GroupSize=4;AssignStrands=TRUE;StrandValue=4;"
         +:+ "AssignSolutionTime=TRUE;TimeValue=0;DeltaValue=1;"
         +:+ "TimeOption=Automatic;'")).
Proof.
  etrans.
  - refine (proj1 (proj2 (transient_macro_text Sample.str_scalar Sample.cwd
              "T.h5" [("T", Sample.T)] 0%Z 4 0%Z 1%Z ∅ _ _ _ _ _))).
    + apply (bool_decide_unpack _). vm_compute. exact I.
    + repeat constructor.
    + reflexivity.
    + vm_compute. lia.
    + repeat constructor. intros H. discriminate H.
  - vm_compute. reflexivity.
Defined.

(** A grid [Y] of shape (1, 2, 2) before [X] of shape (3,): the one
    [$!READDATASET] line of the macro names [Y] before [X], the order of
    the mapping. The line character by character, with a backquote
    standing for each double quote. *)
Lemma static_macro_text_sample :
  ∃ text,
    macro_of
      (Sample.run "grid.h5" [("Y", Sample.G); ("X", Sample.X)] None 0%Z 1%Z
         true ∅).2
      "/home/user/grid.mcr" = Some text ∧
    command_lines "$!READDATASET" text
    = [lit ("$!READDATASET  '`-F` `1` /home/user/grid.h5 `-D` `2` `Y` `X`  "
              +:+ "`-K` `1` `1` `1`'")].
Proof.
  destruct (static_macro_text Sample.str_scalar Sample.cwd
              "grid.h5" [("Y", Sample.G); ("X", Sample.X)] 0%Z 1%Z ∅)
    as (text & _ & Ht & _ & Hl).
  - discriminate.
  - apply (bool_decide_unpack _). vm_compute. exact I.
  - repeat constructor.
  - repeat constructor; vm_compute; lia.
  - reflexivity.
  - repeat constructor.
  - exists text. split; [exact Ht|]. rewrite Hl. vm_compute. reflexivity.
Defined.

(** [V] has three steps and [U], the last array of rank 4, has two: the
    call has two steps. *)
Lemma steps_from_last_max_rank_sample :
  time_steps [("V", Sample.V); ("U", Sample.U); ("G", Sample.G)] (Some 0%Z)
  = Ok (Some 2).
Proof.
  refine (proj1 (steps_from_last_max_rank Sample.str_scalar Sample.cwd
            "flow.h5" [("V", Sample.V)] "U" Sample.U [("G", Sample.G)]
            0%Z 2 0%Z 1%Z true ∅ _ _ _)).
  - repeat constructor.
  - repeat constructor.
  - reflexivity.
Defined.

(** ** What a call does to the file system *)

Section Effects.
Context {elem scalar : Type}.
Context (str_scalar : scalar → string) (cwd : string).
Implicit Types (variables : list (string * ndarray elem)).
Implicit Types (fs : gmap string (file elem)).

(** Whatever the file system holds, a call has the same result and writes
    the same files: nothing, the container alone, or the container and
    then the macro. *)
Lemma create_hdf5_writes filename variables taxis tstart dt write_macro :
  let f := path_absolute cwd filename in
  let run := create_hdf5 str_scalar cwd filename variables taxis tstart dt
               write_macro in
  ∃ r,
    (∀ fs, run fs = (r, fs)) ∨
    (∃ h5, ∀ fs, run fs = (r, <[f := H5File h5]> fs)) ∨
    (∃ h5 text, ∀ fs,
       run fs = (r, <[macro_path f := TextFile text]>
                      (<[f := H5File h5]> fs))).
Proof.
  intros f run. subst run.
  unfold create_hdf5, export_from, st_bind, st_lift, st_raise, st_ret,
    with_h5_file, write_text. fold f.
  destruct (np_max _) as [max_rank|e]; [|by eauto].
  destruct (nt_loop _ _ _ _) as [nt|e]; [|by eauto].
  case_bool_decide; [by eauto|].
  destruct (write_container variables taxis nt ∅) as [[[]|e] h5];
    [|by eauto 6].
  destruct (build_macro _ _ _ _ _ _ _ _) as [text|e]; [|by eauto 6].
  destruct write_macro; cbn [local]; eauto 8.
Qed.

(** X1: a call leaves every path other than the container path and the
    macro path as it was, whether it returns or raises. *)
Theorem other_files_untouched filename variables taxis tstart dt
    write_macro fs path :
  path ≠ path_absolute cwd filename →
  path ≠ macro_path (path_absolute cwd filename) →
  (create_hdf5 str_scalar cwd filename variables taxis tstart dt
     write_macro fs).2 !! path = fs !! path.
Proof.
  intros Hf Hm.
  destruct (create_hdf5_writes filename variables taxis tstart dt
              write_macro) as (r & [H|[(h5 & H)|(h5 & text & H)]]);
    rewrite H; cbn [snd]; by rewrite ?lookup_insert_ne by done.
Qed.

End Effects.

(** ** Errors before any file is written *)

Section Checks.
Context {elem scalar : Type}.
Context (str_scalar : scalar → string) (cwd : string).
Implicit Types (variables : list (string * ndarray elem)).
Implicit Types (fs : gmap string (file elem)).

(** With a time axis that the arrays of rank [max_rank] do not have, the
    first of them stops the loop of lines 47-50. *)
Lemma nt_loop_bad_axis max_rank t (values : list (ndarray elem)) nt :
  normalize_index max_rank t = None →
  Exists (λ v, ndim v = max_rank) values →
  nt_loop max_rank (Some t) values nt = Raise IndexError.
Proof.
  intros Ht. induction 1 as [v values Hv|v values _ IH]; cbn [nt_loop].
  - rewrite bool_decide_true by done. unfold py_index, ndim in *.
    by rewrite Hv, Ht.
  - case_bool_decide as Hv; [|done]. unfold py_index, ndim in *.
    by rewrite Hv, Ht.
Qed.

Lemma max_rank_attained variables :
  variables ≠ [] →
  Exists (λ v : ndarray elem, ndim v = max_list (ndim <$> variables.*2))
    variables.*2.
Proof.
  intros Hne.
  assert (max_list (ndim <$> variables.*2) ∈ ndim <$> variables.*2)
    as (v & Hv & Hin)%list_elem_of_fmap.
  { apply max_list_elem_of. by destruct variables. }
  apply Exists_exists. by exists v.
Qed.


(** X3: an empty variable set is refused by [np.max] at line 44, before
    anything is written. *)
Theorem empty_variables_rejected filename taxis tstart dt write_macro fs :
  ∃ msg,
    create_hdf5 (elem := elem) str_scalar cwd filename [] taxis tstart dt
      write_macro fs
    = (Raise (ValueError msg), fs).
Proof. by eexists. Qed.

(** X4: a time axis out of range for the arrays of maximal rank makes
    line 50 raise [IndexError] before anything is written, also when a
    rank above 4 would be refused two lines later. *)
Theorem bad_time_axis_rejected filename variables t tstart dt write_macro
    fs :
  variables ≠ [] →
  normalize_index (max_list (ndim <$> variables.*2)) t = None →
  create_hdf5 str_scalar cwd filename variables (Some t) tstart dt
    write_macro fs
  = (Raise IndexError, fs).
Proof.
  intros Hne Ht. unfold create_hdf5, st_bind at 1, st_lift at 1.
  rewrite np_max_nonempty by done.
  unfold st_bind at 1, st_lift at 1.
  by rewrite nt_loop_bad_axis by auto using max_rank_attained.
Qed.

(** X5: with [write_macro=False] a static call on valid inputs, with
    names that are one link each, writes the whole container, writes no
    macro, and then raises the [UnboundLocalError] of line 125. *)
Theorem static_without_macro filename variables tstart dt fs :
  variables ≠ [] →
  NoDup variables.*1 →
  Forall no_slash variables.*1 →
  Forall (λ data, 1 ≤ ndim data ≤ 4) variables.*2 →
  create_hdf5 str_scalar cwd filename variables None tstart dt false fs
  = (Raise (UnboundLocalError "macro_filename"),
     <[path_absolute cwd filename := H5File (list_to_map variables)]> fs).
Proof. intros. by rewrite (create_hdf5_static_run str_scalar cwd). Qed.

(** X6: the static container does not depend on the order of the
    variables, for names that are one link each; only the macro lists
    them in order. *)
Theorem static_container_order filename variables variables' tstart dt
    tstart' dt' write_macro fs :
  variables ≡ₚ variables' →
  variables ≠ [] →
  NoDup variables.*1 →
  Forall no_slash variables.*1 →
  Forall (λ data, 1 ≤ ndim data ≤ 4) variables.*2 →
  macro_path (path_absolute cwd filename) ≠ path_absolute cwd filename →
  let f := path_absolute cwd filename in
  container_of
    (create_hdf5 str_scalar cwd filename variables None tstart dt
       write_macro fs).2 f
  = container_of
      (create_hdf5 str_scalar cwd filename variables' None tstart' dt'
         write_macro fs).2 f.
Proof.
  intros Hp Hne Hnd Hns Hrank Hmp f.
  assert (variables' ≠ []) as Hne'.
  { intros ->. by apply Permutation_nil_r in Hp. }
  assert (NoDup variables'.*1) as Hnd' by by rewrite <-Hp.
  assert (Forall (λ data, 1 ≤ ndim data ≤ 4) variables'.*2) as Hrank'
    by by rewrite <-Hp.
  rewrite !(create_hdf5_static_run str_scalar cwd) by done. fold f.
  rewrite (list_to_map_proper variables variables') by done.
  unfold container_of. destruct write_macro; cbn [snd]; [|done].
  by rewrite !(lookup_insert_ne _ (macro_path f)) by done.
Qed.
End Checks.

(** ** A negative time axis *)

Lemma normalize_index_negative len t :
  (0 ≤ t < Z.of_nat len)%Z →
  normalize_index len (t - Z.of_nat len) = normalize_index len t.
Proof.
  intros Ht. unfold normalize_index.
  rewrite (bool_decide_false (0 ≤ t - _ < _)%Z) by lia.
  rewrite !bool_decide_true by lia. f_equal. lia.
Qed.

Lemma for_ext {S A} (l : list A) (body body' : A → ST S unit) (s : S) :
  (∀ x s', x ∈ l → body x s' = body' x s') →
  for_ l body s = for_ l body' s.
Proof.
  revert s. induction l as [|x l IH]; intros s Hb; [done|].
  cbn [for_]. unfold st_bind. rewrite Hb by left.
  destruct (body' x s) as [[[]|e] s']; [|done].
  apply IH. intros y s'' Hy. apply Hb. by right.
Qed.

Section NegativeAxis.
Context {elem scalar : Type}.
Context (str_scalar : scalar → string) (cwd : string).
Implicit Types (variables : list (string * ndarray elem)).
Implicit Types (fs : gmap string (file elem)).

Lemma nt_loop_negative max_rank t (values : list (ndarray elem)) nt :
  (0 ≤ t < Z.of_nat max_rank)%Z →
  nt_loop max_rank (Some (t - Z.of_nat max_rank)%Z) values nt
  = nt_loop max_rank (Some t) values nt.
Proof.
  intros Ht. revert nt.
  induction values as [|v values IH]; intros nt; [done|].
  cbn [nt_loop]. case_bool_decide as Hv; [|done].
  unfold py_index. unfold ndim in Hv.
  rewrite Hv, normalize_index_negative by done.
  destruct (_ ≫= _); [apply IH | done].
Qed.

Lemma create_hdf5_unfold filename variables taxis tstart dt write_macro fs :
  variables ≠ [] →
  create_hdf5 str_scalar cwd filename variables taxis tstart dt write_macro
    fs
  = match time_steps variables taxis with
    | Ok nt =>
        if bool_decide (4 < max_list (ndim <$> variables.*2))
        then (Raise (ValueError rank_message), fs)
        else export_from str_scalar (path_absolute cwd filename) variables
               taxis nt tstart dt write_macro fs
    | Raise e => (Raise e, fs)
    end.
Proof.
  intros Hne. unfold create_hdf5, time_steps, st_bind at 1, st_lift at 1.
  rewrite np_max_nonempty by done.
  unfold st_bind at 1, st_lift at 1.
  destruct (nt_loop _ _ _ _); [|done].
  by case_bool_decide.
Qed.

(** The time axis matters to lines 56-125 through the slices only. *)
Lemma export_from_axis filename variables t t' nt tstart dt write_macro fs :
  write_container variables (Some t) nt ∅
  = write_container variables (Some t') nt ∅ →
  export_from str_scalar filename variables (Some t) nt tstart dt
    write_macro fs
  = export_from str_scalar filename variables (Some t') nt tstart dt
      write_macro fs.
Proof.
  intros Hw. unfold export_from, st_bind, with_h5_file. by rewrite Hw.
Qed.

(** X7: a negative time axis counts from the last axis of the arrays of
    maximal rank: with maximal rank [m], [taxis = t - m] and [taxis = t]
    give the same result and the same files. *)
Theorem negative_time_axis filename variables t tstart dt write_macro fs :
  variables ≠ [] →
  let m := max_list (ndim <$> variables.*2) in
  (0 ≤ t < Z.of_nat m)%Z →
  create_hdf5 str_scalar cwd filename variables (Some (t - Z.of_nat m)%Z)
    tstart dt write_macro fs
  = create_hdf5 str_scalar cwd filename variables (Some t) tstart dt
      write_macro fs.
Proof.
  intros Hne m Ht. rewrite !create_hdf5_unfold by done.
  unfold time_steps. fold m. rewrite nt_loop_negative by done.
  destruct (nt_loop m (Some t) variables.*2 None) as [nt|e]; [|done].
  case_bool_decide as Hm; [done|].
  apply export_from_axis. unfold write_container, st_bind, st_lift.
  destruct (local "nt" nt) as [n|e]; [|done].
  apply for_ext. intros it h _. apply for_ext.
  intros [vname data] h' Hin. case_bool_decide as Hr; [|done].
  assert (m = 4) as Hm4.
  { assert (ndim data ≤ m); [|lia].
    apply max_list_elem_of_le, list_elem_of_fmap. exists data.
    split; [done|]. apply list_elem_of_fmap. by exists (vname, data). }
  unfold np_take. rewrite Hr, <-Hm4.
  by rewrite normalize_index_negative by done.
Qed.
End NegativeAxis.

(** ** Calls that stop while the container is written *)

Lemma for_app {S A} (l k : list A) (body : A → ST S unit) (s : S) :
  for_ (l ++ k) body s
  = match for_ l body s with
    | (Ok _, s') => for_ k body s'
    | (Raise e, s') => (Raise e, s')
    end.
Proof.
  revert s. induction l as [|x l IH]; intros s; [done|].
  cbn [app for_]. unfold st_bind.
  destruct (body x s) as [[[]|e] s']; [apply IH | done].
Qed.

Section Partial.
Context {elem scalar : Type}.
Context (str_scalar : scalar → string) (cwd : string).
Implicit Types (variables : list (string * ndarray elem)).
Implicit Types (fs : gmap string (file elem)).
Implicit Types (pre post : list (string * ndarray elem)).
Implicit Types (data : ndarray elem).

Lemma covers_steps_le t n m (data : ndarray elem) :
  covers_steps t n data → m ≤ n → covers_steps t m data.
Proof.
  intros Hc Hle Hr. destruct (Hc Hr) as (k & Hk & Hn). exists k.
  split; [done | lia].
Qed.

(** The transient loops up to the first slice that [np.take] refuses:
    the steps before [n] are written for all variables, step [n] for
    the variables before the one that has [n] entries only. *)
Lemma write_container_transient_short t nt n pre vname data post :
  NoDup (pre ++ (vname, data) :: post).*1 →
  ndim data = 4 → py_index (shape data) t = Some n → n < nt →
  Forall (covers_steps t (S n)) pre.*2 →
  Forall (covers_steps t n) post.*2 →
  ∃ h5,
    write_container (pre ++ (vname, data) :: post) (Some t) (Some nt) ∅
    = (Raise IndexError, h5) ∧
    ∀ key d, h5 !! key = Some d ↔
      ∃ it v a, (v, a) ∈ pre ++ (vname, data) :: post ∧
        key = zone_dataset it v ∧ zone_data t it a = Ok d ∧
        (it < n ∨ it = n ∧ (v, a) ∈ pre).
Proof.
  intros Hnd Hr Hn Hlt Hpre Hpost.
  set (variables := pre ++ (vname, data) :: post) in *.
  assert (Forall (covers_steps t n) variables.*2) as Hcov.
  { subst variables. rewrite fmap_app, fmap_cons. apply Forall_app. split.
    - eapply Forall_impl; [exact Hpre|]. intros a Ha.
      apply (covers_steps_le t (S n)); [done | lia].
    - constructor; [|done]. intros _. exists n. split; [done | lia]. }
  destruct (write_container_transient_spec t n variables Hnd Hcov)
    as (h & Hh & Hkeys).
  unfold write_container in *. cbn [local] in *.
  unfold st_bind at 1, st_lift at 1 in Hh. unfold st_bind at 1, st_lift at 1.
  assert (seq 0 nt = seq 0 n ++ n :: seq (S n) (nt - S n)) as ->.
  { replace nt with (n + S (nt - S n)) at 1 by lia.
    by rewrite seq_app. }
  rewrite for_app, Hh. cbn [for_]. unfold st_bind at 1.
  assert (NoDup pre.*1) as Hndpre.
  { subst variables. rewrite fmap_app in Hnd.
    by apply NoDup_app in Hnd as (? & _ & _). }
  destruct (write_zone_spec t n pre h Hndpre) as (h' & Hzone & Hh').
  { intros v. destruct (h !! zone_dataset n v) as [d|] eqn:Hd; [|done].
    apply Hkeys in Hd as (it & v' & a & Hit & _ & Heq & _).
    apply zone_dataset_inj in Heq as [<- _]. lia. }
  { intros v a Hin. apply (zone_data_covered t (S n)); [|lia].
    rewrite Forall_forall in Hpre. apply Hpre.
    apply list_elem_of_fmap. by exists (v, a). }
  subst variables. rewrite for_app, Hzone. cbn [for_].
  unfold st_bind at 1. rewrite bool_decide_true by done.
  apply py_index_Some in Hn as (k & Hk & Hn'). fold (ndim data) in Hk.
  unfold st_bind at 1, st_lift at 1, np_take at 1. rewrite Hk, Hn'.
  change (default 0 (Some n)) with n.
  rewrite bool_decide_false by lia.
  exists h'. split; [done|]. intros key d. rewrite Hh', Hkeys. split.
  - intros [(it & v & a & Hit & Hin & Hkey & Hd)|(v & a & Hin & Hkey & Hd)].
    + exists it, v, a. eauto.
    + exists n, v, a. split; [apply elem_of_app; by left|]. eauto.
  - intros (it & v & a & Hin & Hkey & Hd & [Hit|[-> Hp]]).
    + left. by exists it, v, a.
    + right. by exists v, a.
Qed.

(** X8: when a rank-4 variable has [n] entries along the time axis,
    fewer than the call has steps, and it is the first that [np.take]
    refuses, the call raises the [IndexError] of line 64: the container
    file has been created and keeps what was written until then, the
    steps before [n] for all variables and step [n] for the variables
    before that one, and no macro is written. Names are one link
    each. *)
Theorem short_time_axis_stops filename pre vname data post t nt n tstart dt
    write_macro fs :
  let variables := pre ++ (vname, data) :: post in
  NoDup variables.*1 →
  Forall no_slash variables.*1 →
  time_steps variables (Some t) = Ok (Some nt) →
  max_list (ndim <$> variables.*2) ≤ 4 →
  ndim data = 4 → py_index (shape data) t = Some n → n < nt →
  Forall (covers_steps t (S n)) pre.*2 →
  Forall (covers_steps t n) post.*2 →
  ∃ h5,
    create_hdf5 str_scalar cwd filename variables (Some t) tstart dt
      write_macro fs
    = (Raise IndexError, <[path_absolute cwd filename := H5File h5]> fs) ∧
    ∀ key d, h5 !! key = Some d ↔
      ∃ it v a, (v, a) ∈ variables ∧
        key = zone_dataset it v ∧ zone_data t it a = Ok d ∧
        (it < n ∨ it = n ∧ (v, a) ∈ pre).
Proof.
  intros variables Hnd Hns Hnt Hmax Hr Hn Hlt Hpre Hpost.
  destruct (write_container_transient_short t nt n pre vname data post)
    as (h5 & Hw & Hkeys); [done..|].
  exists h5. split; [|done].
  rewrite (create_hdf5_checked _ _ _ _ _ (Some nt))
    by eauto using time_steps_nonempty.
  unfold export_from, st_bind at 1, with_h5_file.
  fold variables in Hw. by rewrite Hw.
Qed.
(** X9: a static call stops at the first variable of rank 0, on the
    [IndexError] of [data[:]] at line 70: the container keeps the
    variables before it, whose names are one link each, and no macro is
    written. *)
Theorem rank0_stops_static filename pre vname data post tstart dt
    write_macro fs :
  NoDup (pre ++ (vname, data) :: post).*1 →
  Forall no_slash pre.*1 →
  Forall (λ a, 1 ≤ ndim a ≤ 4) pre.*2 →
  ndim data = 0 →
  Forall (λ a, ndim a ≤ 4) post.*2 →
  create_hdf5 str_scalar cwd filename (pre ++ (vname, data) :: post) None
    tstart dt write_macro fs
  = (Raise IndexError,
     <[path_absolute cwd filename := H5File (list_to_map pre)]> fs).
Proof.
  intros Hnd Hns Hpre Hdata Hpost.
  rewrite (create_hdf5_checked _ _ _ _ _ None).
  - unfold export_from, st_bind at 1, with_h5_file.
    assert (write_container (pre ++ (vname, data) :: post) None None ∅
            = (Raise IndexError, list_to_map pre)) as ->; [|done].
    pose proof (write_container_static_spec pre None) as Hw.
    unfold write_container in *. rewrite for_app, Hw.
    + cbn [for_]. unfold st_bind, st_lift, slice_all.
      by rewrite bool_decide_true by done.
    + rewrite fmap_app in Hnd. by apply NoDup_app in Hnd as (? & _ & _).
    + eapply Forall_impl; [exact Hpre|]. cbn. lia.
  - by destruct pre.
  - apply nt_loop_static.
  - apply max_list_bound.
    rewrite Forall_fmap, fmap_app, fmap_cons.
    apply Forall_app. split.
    + eapply Forall_impl; [exact Hpre|]. cbn. lia.
    + constructor; [cbn; lia | done].
Qed.

End Partial.

(** ** Slices *)

Lemma prod_list_app l k : prod_list (l ++ k) = prod_list l * prod_list k.
Proof.
  unfold prod_list. induction l as [|n l IH]; simpl; [lia|].
  rewrite IH. lia.
Qed.

Lemma length_concat_const {A B} (f : A → list B) (l : list A) (c : nat) :
  (∀ x, x ∈ l → length (f x) = c) →
  length (concat (f <$> l)) = length l * c.
Proof.
  induction l as [|x l IH]; intros Hf; [done|].
  cbn [fmap list_fmap concat length]. rewrite length_app, Hf by left.
  fold (f <$> l). rewrite IH; [lia|]. intros y Hy. apply Hf. by right.
Qed.

Section Slices.
Context {elem : Type}.
Implicit Types (a d : ndarray elem).

(** The slice of a well-formed array along an axis it has is
    well-formed, with that axis removed. *)
Lemma take_along_wf a k n i :
  wf_array a → shape a !! k = Some n → i < n →
  wf_array (take_along a k i) ∧
  shape (take_along a k i) = delete k (shape a) ∧
  ndim (take_along a k i) = ndim a - 1.
Proof.
  unfold wf_array, ndim. intros Hwf Hk Hi. cbn [shape buffer take_along].
  pose proof (take_drop_middle _ _ _ Hk) as Hshape.
  assert (prod_list (shape a)
          = prod_list (take k (shape a)) * (n * prod_list (drop (S k) (shape a))))
    as Hprod.
  { rewrite <-Hshape at 1. by rewrite prod_list_app. }
  split; [|split; [done|]].
  - rewrite Hk. cbn [default from_option id].
    rewrite delete_take_drop, prod_list_app.
    rewrite (length_concat_const _ _ (prod_list (drop (S k) (shape a)))).
    + by rewrite length_seq.
    + intros o [_ Ho]%elem_of_seq.
      rewrite length_take, length_drop, Hwf, Hprod.
      set (inner := prod_list (drop (S k) (shape a))).
      set (outer := prod_list (take k (shape a))) in *.
      assert ((o * n + i) * inner + inner ≤ outer * (n * inner)); [|lia].
      assert (o * n + i + 1 ≤ outer * n) by nia. nia.
  - rewrite length_delete by eauto. done.
Qed.

Lemma np_take_wf a i axis d :
  wf_array a → np_take a i axis = Ok d →
  wf_array d ∧ ndim d = ndim a - 1 ∧
  ∃ k, normalize_index (ndim a) axis = Some k ∧
       shape d = delete k (shape a).
Proof.
  unfold np_take. intros Hwf Hd.
  destruct (normalize_index (ndim a) axis) as [k|] eqn:Hk; [|done].
  case_bool_decide as Hi; [|done]. injection Hd as <-.
  destruct (shape a !! k) as [n|] eqn:Hn; [|cbn in Hi; lia].
  destruct (take_along_wf a k n i Hwf Hn Hi) as (? & ? & ?). eauto.
Qed.
End Slices.

Section StoredArrays.
Context {elem scalar : Type}.
Context (str_scalar : scalar → string) (cwd : string).
Implicit Types (variables : list (string * ndarray elem)).
Implicit Types (fs : gmap string (file elem)).

(** X11: from well-formed arrays with names that are one link each a
    transient call stores well-formed arrays only: every dataset of the
    container is, for a step [it] of the call, the slice [np.take] gives
    at [it] of a rank-4 variable, of rank 3, or a variable of lower rank
    as it is. *)
Theorem transient_datasets_wf filename variables t nt tstart dt
    write_macro fs :
  NoDup variables.*1 →
  Forall no_slash variables.*1 →
  time_steps variables (Some t) = Ok (Some nt) →
  max_list (ndim <$> variables.*2) ≤ 4 →
  Forall (covers_steps t nt) variables.*2 →
  Forall wf_array variables.*2 →
  macro_path (path_absolute cwd filename) ≠ path_absolute cwd filename →
  ∃ h5,
    container_of (create_hdf5 str_scalar cwd filename variables (Some t)
                    tstart dt write_macro fs).2
      (path_absolute cwd filename) = Some h5 ∧
    ∀ key d, h5 !! key = Some d →
      wf_array d ∧
      ∃ it vname data, it < nt ∧ (vname, data) ∈ variables ∧
        key = zone_dataset it vname ∧
        (if bool_decide (ndim data = 4)
         then np_take data it t = Ok d ∧ ndim d = 3
         else d = data).
Proof.
  intros Hnd Hns Hnt Hmax Hcov Hwf Hmp.
  destruct (create_hdf5_transient_run str_scalar cwd filename variables t
              nt tstart dt write_macro fs Hnd Hnt Hmax Hcov)
    as (h5 & Hh5 & Hrun).
  exists h5. rewrite Hrun. split.
  { unfold container_of. destruct write_macro; cbn [snd].
    - rewrite lookup_insert_ne by done. by rewrite lookup_insert_eq.
    - by rewrite lookup_insert_eq. }
  intros key d (it & vname & data & Hit & Hin & -> & Hd)%Hh5.
  assert (wf_array data) as Hdata.
  { rewrite Forall_forall in Hwf. apply Hwf.
    apply list_elem_of_fmap. by exists (vname, data). }
  unfold zone_data in Hd. case_bool_decide as Hr.
  - destruct (np_take_wf data it t d Hdata Hd) as (Hwd & Hrank & _).
    split; [done|]. exists it, vname, data.
    rewrite bool_decide_true by done.
    split; [done|]. split; [done|]. split; [done|]. split; [done|]. lia.
  - injection Hd as <-. split; [done|]. exists it, vname, data.
    by rewrite bool_decide_false by done.
Qed.
End StoredArrays.

(** ** The macro path *)

Lemma str_length_app s t :
  String.length (s +:+ t) = String.length s + String.length t.
Proof.
  induction s as [|a s IH]; [done|].
  rewrite str_app_cons. cbn [String.length]. by rewrite IH.
Qed.

Lemma str_take_drop n s : str_take n s +:+ str_drop n s = s.
Proof.
  revert s. induction n as [|n IH]; intros [|a s]; try done.
  cbn [str_take str_drop]. by rewrite str_app_cons, IH.
Qed.

Lemma str_drop_drop n m s : str_drop n (str_drop m s) = str_drop (m + n) s.
Proof.
  revert s. induction m as [|m IH]; intros s; [done|].
  destruct s as [|a s]; [by destruct n|]. apply IH.
Qed.

(** A prefix can be split off. *)
Lemma prefix_split old s :
  String.prefix old s = true → ∃ rest, s = old +:+ rest.
Proof.
  revert s. induction old as [|o old IH]; intros s Hp; [by exists s|].
  destruct s as [|a s]; [done|]. cbn [String.prefix] in Hp.
  destruct (ascii_dec o a) as [->|]; [|done].
  destruct (IH s Hp) as [rest ->]. by exists rest.
Qed.

Lemma prefix_app old rest : String.prefix old (old +:+ rest) = true.
Proof.
  induction old as [|o old IH]; [by destruct rest|].
  rewrite str_app_cons. cbn [String.prefix].
  by destruct (ascii_dec o o).
Qed.

(** The scan drops the characters it has been told to skip. *)
Lemma str_replace_go_skip old new p rest :
  str_replace_go old new (String.length p) (p +:+ rest)
  = str_replace_go old new 0 rest.
Proof.
  induction p as [|a p IH]; [by destruct rest|].
  rewrite str_app_cons. cbn [String.length str_replace_go]. apply IH.
Qed.

(** The scan after an occurrence at the front. *)
Lemma str_replace_go_front o old new rest :
  str_replace_go (String o old) new 0 (String o old +:+ rest)
  = new +:+ str_replace_go (String o old) new 0 rest.
Proof.
  rewrite str_app_cons. cbn [str_replace_go].
  rewrite <-str_app_cons, prefix_app.
  cbn [String.length]. rewrite Nat.sub_succ, Nat.sub_0_r.
  by rewrite str_replace_go_skip.
Qed.

Lemma occurrences_app_nil old p rest :
  occurrences old (p +:+ rest) = [] → occurrences old rest = [].
Proof.
  induction p as [|a p IH]; [done|].
  rewrite str_app_cons. cbn [occurrences].
  intros [_ H]%app_eq_nil. apply IH. by destruct (occurrences old _).
Qed.

(** Without an occurrence the scan copies the string. *)
Lemma str_replace_go_none old new s :
  occurrences old s = [] → str_replace_go old new 0 s = s.
Proof.
  induction s as [|a s IH]; [done|]. cbn [occurrences str_replace_go].
  destruct (String.prefix old (String a s)); [done|].
  cbn [app]. intros H. rewrite IH; [done|].
  by destruct (occurrences old s).
Qed.

(** With one occurrence the scan replaces it and copies the rest. *)
Lemma str_replace_go_once o old new stem rest :
  occurrences (String o old) (stem +:+ String o old +:+ rest)
  = [String.length stem] →
  str_replace_go (String o old) new 0 (stem +:+ String o old +:+ rest)
  = stem +:+ new +:+ rest.
Proof.
  induction stem as [|a stem IH].
  - cbn [String.length]. intros Hocc.
    change ("" +:+ String o old +:+ rest) with (String o old +:+ rest) in *.
    change ("" +:+ new +:+ rest) with (new +:+ rest).
    rewrite str_replace_go_front. f_equal.
    apply str_replace_go_none.
    rewrite str_app_cons in Hocc. cbn [occurrences] in Hocc.
    rewrite <-str_app_cons, prefix_app in Hocc.
    injection Hocc as Hocc.
    apply (occurrences_app_nil _ old).
    by destruct (occurrences _ (old +:+ rest)).
  - rewrite !str_app_cons. cbn [occurrences str_replace_go String.length].
    destruct (String.prefix _ _); [done|]. cbn [app]. intros Hocc.
    f_equal. apply IH.
    destruct (occurrences _ (stem +:+ _)) as [|n [|m l]]; try done.
    by injection Hocc as ->.
Qed.

(** Replacing a string by itself changes nothing. *)
Lemma str_replace_go_same o old s :
  str_replace_go (String o old) (String o old) 0 s = s.
Proof.
  remember (String.length s) as n eqn:Hn. revert s Hn.
  induction (lt_wf n) as [n _ IH]. intros s ->.
  destruct s as [|a s]; [done|]. cbn [str_replace_go].
  destruct (String.prefix (String o old) (String a s)) eqn:Hp.
  - apply prefix_split in Hp as [rest Hs].
    rewrite str_app_cons in Hs. injection Hs as -> ->.
    cbn [String.length]. rewrite Nat.sub_succ, Nat.sub_0_r, str_replace_go_skip.
    rewrite (IH (String.length rest)); [done| |done].
    cbn [String.length]. rewrite str_length_app. lia.
  - f_equal. apply (IH (String.length s)); [|done].
    cbn [String.length]. lia.
Qed.

Lemma macro_path_once stem suffix :
  path_suffix (stem +:+ suffix) = suffix →
  suffix ≠ "" →
  occurrences suffix (stem +:+ suffix) = [String.length stem] →
  macro_path (stem +:+ suffix) = stem +:+ ".mcr" ∧
  (suffix ≠ ".mcr" → macro_path (stem +:+ suffix) ≠ stem +:+ suffix).
Proof.
  intros Hs Hne Hocc. unfold macro_path. rewrite Hs.
  destruct suffix as [|o old]; [done|]. unfold str_replace.
  assert (str_replace_go (String o old) ".mcr" 0 (stem +:+ String o old)
          = stem +:+ ".mcr") as ->.
  { rewrite <-(str_app_nil_r (String o old)) at 2.
    rewrite str_replace_go_once by by rewrite str_app_nil_r.
    by rewrite str_app_nil_r. }
  split; [done|]. intros Hmcr Heq. by apply (inj _) in Heq.
Qed.

(** X12: when the path is [stem] followed by its suffix, and the suffix
    text occurs nowhere else in the path, the macro path is [stem]
    followed by [.mcr]; it differs from the container path unless the
    suffix is [.mcr] itself. *)
Theorem macro_path_single_suffix stem suffix :
  path_suffix (stem +:+ suffix) = suffix →
  suffix ≠ "" →
  occurrences suffix (stem +:+ suffix) = [String.length stem] →
  macro_path (stem +:+ suffix) = stem +:+ ".mcr" ∧
  (suffix ≠ ".mcr" → macro_path (stem +:+ suffix) ≠ stem +:+ suffix).
Proof. apply macro_path_once. Qed.

(** X13: a container path without a suffix gets [.mcr] put before, after
    and between all its characters: the macro path starts with [.mcr]
    and is five times as long, plus four. *)
Theorem macro_path_without_suffix filename :
  path_suffix filename = "" →
  macro_path filename = str_intersperse ".mcr" filename ∧
  String.prefix ".mcr" (macro_path filename) = true ∧
  String.length (macro_path filename) = 5 * String.length filename + 4.
Proof.
  intros Hs. unfold macro_path. rewrite Hs. cbn [str_replace].
  split; [done|]. split; [by destruct filename|].
  induction filename as [|a s IH] in |- *; [done|].
  cbn [str_intersperse String.length]. rewrite str_length_app.
  cbn [String.length].
  assert (String.length (str_intersperse ".mcr" s) = 5 * String.length s + 4)
    as ->; [|lia].
  clear. induction s as [|a s IH]; [done|].
  cbn [str_intersperse String.length]. rewrite str_length_app.
  cbn [String.length]. lia.
Qed.

Section MacroOverContainer.
Context {elem scalar : Type}.
Context (str_scalar : scalar → string) (cwd : string).
Implicit Types (variables : list (string * ndarray elem)).
Implicit Types (fs : gmap string (file elem)).

(** X14: for a container path whose suffix is [.mcr] the macro path is
    the container path: a call that returns has written the macro over
    the container, and returns the same path twice. *)
Theorem mcr_container_overwritten filename variables taxis tstart dt
    write_macro fs paths :
  path_suffix (path_absolute cwd filename) = ".mcr" →
  let f := path_absolute cwd filename in
  let out := create_hdf5 str_scalar cwd filename variables taxis tstart dt
               write_macro fs in
  out.1 = Ok paths →
  paths = (f, f) ∧ container_of out.2 f = None ∧ is_Some (macro_of out.2 f).
Proof.
  intros Hs f out. subst out.
  assert (macro_path f = f) as Hmp.
  { unfold macro_path. fold f in Hs. rewrite Hs. apply str_replace_go_same. }
  unfold create_hdf5, export_from, st_bind, st_lift, st_raise, st_ret,
    with_h5_file, write_text. fold f. rewrite !Hmp.
  destruct (np_max _) as [max_rank|e]; [|done].
  destruct (nt_loop _ _ _ _) as [nt|e]; [|done].
  case_bool_decide; [done|].
  destruct (write_container variables taxis nt ∅) as [[[]|e] h5]; [|done].
  destruct (build_macro _ _ _ _ _ _ _ _) as [text|e]; [|done].
  destruct write_macro; cbn [local fst snd]; [|done].
  intros [= <-]. unfold container_of, macro_of.
  rewrite !lookup_insert_eq. by eauto.
Qed.
End MacroOverContainer.

(** ** The example script *)






Section ExampleScript.
Context {elem : Type}.
Context (xx yy zz u v w : list elem).


End ExampleScript.

(** ** The further theorems at sample inputs *)

Lemma other_files_untouched_sample :
  (Sample.run "X.h5" [("X", Sample.X)] None 0%Z 1%Z true
     {[ "/home/user/notes.txt" := TextFile "keep" ]}).2
    !! "/home/user/notes.txt"
  = Some (TextFile "keep").
Proof.
  etrans; [apply (other_files_untouched Sample.str_scalar Sample.cwd)|].
  - intros H. vm_compute in H. discriminate H.
  - intros H. vm_compute in H. discriminate H.
  - reflexivity.
Defined.

Lemma bad_time_axis_rejected_sample :
  Sample.run "T.h5" [("T", Sample.T)] (Some 2%Z) 0%Z 1%Z true ∅
  = (Raise IndexError, ∅).
Proof.
  apply (bad_time_axis_rejected Sample.str_scalar Sample.cwd).
  - discriminate.
  - reflexivity.
Defined.

Lemma static_without_macro_sample :
  Sample.run "X.h5" [("X", Sample.X)] None 0%Z 1%Z false ∅
  = (Raise (UnboundLocalError "macro_filename"),
     <["/home/user/X.h5" := H5File (list_to_map [("X", Sample.X)])]> ∅).
Proof.
  apply (static_without_macro Sample.str_scalar Sample.cwd).
  - discriminate.
  - apply (bool_decide_unpack _). vm_compute. exact I.
  - repeat constructor.
  - repeat constructor; vm_compute; lia.
Defined.

Lemma static_container_order_sample :
  container_of
    (Sample.run "X.h5" [("X", Sample.X); ("G", Sample.G)] None 0%Z 1%Z
       true ∅).2 "/home/user/X.h5"
  = container_of
      (Sample.run "X.h5" [("G", Sample.G); ("X", Sample.X)] None 5%Z 2%Z
         true ∅).2 "/home/user/X.h5".
Proof.
  apply (static_container_order Sample.str_scalar Sample.cwd).
  - apply perm_swap.
  - discriminate.
  - apply (bool_decide_unpack _). vm_compute. exact I.
  - repeat constructor.
  - repeat constructor; vm_compute; lia.
  - intros H. vm_compute in H. discriminate H.
Defined.

(** For [T] of shape (4, 3) the axes -2 and 0 are the same. *)
Lemma negative_time_axis_sample :
  Sample.run "T.h5" [("T", Sample.T)] (Some (-2)%Z) 0%Z 1%Z true ∅
  = Sample.run "T.h5" [("T", Sample.T)] (Some 0%Z) 0%Z 1%Z true ∅.
Proof.
  refine (negative_time_axis Sample.str_scalar Sample.cwd "T.h5"
            [("T", Sample.T)] 0%Z 0%Z 1%Z true ∅ _ _).
  - discriminate.
  - vm_compute. split; [discriminate | reflexivity].
Defined.

(** [U] has two steps where [V], the last array of rank 4, has three:
    the call stops at step 2 after the grid [G], with both steps before
    it written. *)
Lemma short_time_axis_stops_sample :
  ∃ h5,
    Sample.run "flow.h5"
      [("G", Sample.G); ("U", Sample.U); ("V", Sample.V)] (Some 0%Z) 0%Z
      1%Z true ∅
    = (Raise IndexError, <["/home/user/flow.h5" := H5File h5]> ∅) ∧
    h5 !! "Z1/V" = Some (NdArray [1; 2; 2] [4; 5; 6; 7]%Z) ∧
    h5 !! "Z2/G" = Some Sample.G ∧
    h5 !! "Z2/U" = None.
Proof.
  destruct (short_time_axis_stops Sample.str_scalar Sample.cwd "flow.h5"
              [("G", Sample.G)] "U" Sample.U [("V", Sample.V)] 0%Z 3 2
              0%Z 1%Z true ∅) as (h5 & Hrun & Hkeys).
  - apply (bool_decide_unpack _). vm_compute. exact I.
  - repeat constructor.
  - reflexivity.
  - vm_compute. lia.
  - reflexivity.
  - reflexivity.
  - lia.
  - repeat constructor. intros H. discriminate H.
  - repeat constructor. intros _. exists 3. split; [reflexivity | lia].
  - exists h5. split; [exact Hrun|]. split; [|split].
    + apply Hkeys. exists 1, "V", Sample.V.
      split; [right; right; left|]. split; [reflexivity|].
      split; [reflexivity | left; lia].
    + apply Hkeys. exists 2, "G", Sample.G.
      split; [left|]. split; [reflexivity|].
      split; [reflexivity | right; split; [reflexivity | left]].
    + destruct (h5 !! "Z2/U") as [d|] eqn:Hd; [|reflexivity].
      apply Hkeys in Hd as (it & v & a & _ & Hkey & _ & Hwhere).
      change "Z2/U" with (zone_dataset 2 "U") in Hkey.
      apply zone_dataset_inj in Hkey as [<- <-].
      destruct Hwhere as [Hit|[_ Hin]]; [lia|].
      apply list_elem_of_singleton in Hin. discriminate Hin.
Defined.

(** A scalar after [X]: the container keeps [X]. *)
Lemma rank0_stops_static_sample :
  Sample.run "X.h5" [("X", Sample.X); ("S", NdArray [] [7%Z])] None 0%Z 1%Z
    true ∅
  = (Raise IndexError,
     <["/home/user/X.h5" := H5File (list_to_map [("X", Sample.X)])]> ∅).
Proof.
  apply (rank0_stops_static Sample.str_scalar Sample.cwd "X.h5"
           [("X", Sample.X)] "S" (NdArray [] [7%Z]) []).
  - apply (bool_decide_unpack _). vm_compute. exact I.
  - repeat constructor.
  - repeat constructor; vm_compute; lia.
  - reflexivity.
  - constructor.
Defined.


Lemma transient_datasets_wf_sample :
  ∃ h5,
    container_of
      (Sample.run "flow.h5" [("U", Sample.U); ("G", Sample.G)] (Some 0%Z)
         0%Z 1%Z true ∅).2 "/home/user/flow.h5" = Some h5 ∧
    ∀ key d, h5 !! key = Some d → wf_array d ∧ ndim d = 3.
Proof.
  destruct (transient_datasets_wf Sample.str_scalar Sample.cwd
              "flow.h5" [("U", Sample.U); ("G", Sample.G)] 0%Z 2 0%Z 1%Z
              true ∅) as (h5 & Hc & Hd).
  - apply (bool_decide_unpack _). vm_compute. exact I.
  - repeat constructor.
  - reflexivity.
  - vm_compute. lia.
  - repeat constructor.
    + intros _. exists 2. split; [reflexivity | lia].
    + intros H. discriminate H.
  - repeat constructor.
  - intros H. vm_compute in H. discriminate H.
  - exists h5. split; [exact Hc|]. intros key d H.
    destruct (Hd key d H) as (Hwf & it & v & a & _ & Hin & _ & Hcase).
    split; [exact Hwf|].
    apply elem_of_cons in Hin as [Hin|Hin].
    + injection Hin as -> ->.
      rewrite bool_decide_true in Hcase by reflexivity.
      exact (proj2 Hcase).
    + apply list_elem_of_singleton in Hin. injection Hin as -> ->.
      rewrite bool_decide_false in Hcase by discriminate.
      subst d. reflexivity.
Defined.

Lemma transient_datasets_sample :
  ∃ h5 d,
    container_of
      (Sample.run "flow.h5" [("U", Sample.U); ("G", Sample.G)] (Some 0%Z)
         0%Z 1%Z true ∅).2 "/home/user/flow.h5" = Some h5 ∧
    h5 !! "Z1/U" = Some d ∧ np_take Sample.U 1 0 = Ok d ∧
    h5 !! "Z1/G" = Some Sample.G.
Proof.
  destruct (transient_datasets Sample.str_scalar Sample.cwd
              "flow.h5" [("U", Sample.U); ("G", Sample.G)] 0%Z 2 0%Z 1%Z
              true ∅) as (h5 & Hc & Hd).
  - apply (bool_decide_unpack _). vm_compute. exact I.
  - repeat constructor.
  - reflexivity.
  - vm_compute. lia.
  - repeat constructor.
    + intros _. exists 2. split; [reflexivity | lia].
    + intros H. discriminate H.
  - intros H. vm_compute in H. discriminate H.
  - destruct (Hd 1 "U" Sample.U) as (d & Hu & Hslice); [lia | left |].
    destruct (Hd 1 "G" Sample.G) as (g & Hg & Hwhole);
      [lia | right; left |].
    exists h5, d. split; [exact Hc|]. split; [exact Hu|].
    split; [exact Hslice|].
    rewrite bool_decide_false in Hwhole by discriminate. by subst g.
Defined.

Lemma macro_path_single_suffix_sample :
  macro_path "/home/user/run.h5" = "/home/user/run.mcr".
Proof.
  refine (proj1 (macro_path_single_suffix "/home/user/run" ".h5" _ _ _)).
  - reflexivity.
  - discriminate.
  - reflexivity.
Defined.

Lemma macro_path_without_suffix_sample :
  macro_path "/tmp/ab" = ".mcr/.mcrt.mcrm.mcrp.mcr/.mcra.mcrb.mcr".
Proof.
  refine (proj1 (macro_path_without_suffix "/tmp/ab" _)). reflexivity.
Defined.

Lemma mcr_container_overwritten_sample :
  container_of
    (Sample.run "/tmp/x.mcr" [("X", Sample.X)] None 0%Z 1%Z true ∅).2
    "/tmp/x.mcr"
  = None.
Proof.
  refine (proj1 (proj2 (mcr_container_overwritten Sample.str_scalar
            Sample.cwd "/tmp/x.mcr" [("X", Sample.X)] None 0%Z 1%Z true ∅
            ("/tmp/x.mcr", "/tmp/x.mcr") _ _))).
  - reflexivity.
  - reflexivity.
Defined.


(** ** What a call returns and what it can raise *)

(** A loop raises what one of its bodies raised. *)
Lemma for_raise_inv {S A} (l : list A) (body : A → ST S unit) (s s' : S) e :
  for_ l body s = (Raise e, s') →
  ∃ x s1, x ∈ l ∧ body x s1 = (Raise e, s').
Proof.
  revert s. induction l as [|x l IH]; intros s Hrun; [done|].
  cbn [for_] in Hrun. unfold st_bind in Hrun.
  destruct (body x s) as [[[]|e'] s1] eqn:Hx.
  - destruct (IH s1 Hrun) as (y & s2 & Hy & Hbody).
    exists y, s2. split; [by right | done].
  - injection Hrun as -> ->. exists x, s. split; [left | done].
Qed.

Section Outcomes.
Context {elem scalar : Type}.
Context (str_scalar : scalar → string) (cwd : string).
Implicit Types (variables : list (string * ndarray elem)).
Implicit Types (fs : gmap string (file elem)).

Lemma nt_loop_raise max_rank taxis (values : list (ndarray elem)) nt e :
  nt_loop max_rank taxis values nt = Raise e → e = IndexError.
Proof.
  revert nt. induction values as [|v values IH]; intros nt; [done|].
  cbn [nt_loop]. case_bool_decide; [|by apply IH].
  destruct taxis as [t|]; [|by apply IH].
  destruct (py_index _ _); [by apply IH | by intros [= <-]].
Qed.

Lemma nt_loop_keeps max_rank taxis (values : list (ndarray elem)) n nt :
  nt_loop max_rank taxis values (Some n) = Ok nt → is_Some nt.
Proof.
  revert n. induction values as [|v values IH]; intros n.
  { intros [= <-]. by eexists. }
  cbn [nt_loop]. case_bool_decide; [|by apply IH].
  destruct taxis as [t|]; [|by apply IH].
  destruct (py_index _ _); [by apply IH | done].
Qed.

(** The loop of lines 47-50 binds [nt] when an array of rank [max_rank]
    is there. *)
Lemma nt_loop_binds max_rank t (values : list (ndarray elem)) nt nt' :
  Exists (λ v, ndim v = max_rank) values →
  nt_loop max_rank (Some t) values nt = Ok nt' → is_Some nt'.
Proof.
  intros Hex. revert nt.
  induction Hex as [v values Hv|v values _ IH]; intros nt; cbn [nt_loop].
  - rewrite bool_decide_true by done.
    destruct (py_index _ _) as [n|]; [|done]. apply nt_loop_keeps.
  - case_bool_decide; [|by apply IH].
    destruct (py_index _ _); [by apply IH | done].
Qed.

(** The loops of lines 60-70 raise no [UnboundLocalError] once [nt] is
    bound. *)
Lemma write_container_raise variables taxis nt h5 e :
  (is_Some taxis → is_Some nt) →
  write_container variables taxis nt ∅ = (Raise e, h5) →
  ¬ unbound_local e.
Proof.
  intros Hnt. unfold write_container. destruct taxis as [t|].
  - destruct (Hnt (mk_is_Some _ _ eq_refl)) as [n ->]. cbn [local].
    unfold st_bind at 1, st_lift at 1.
    intros (it & h & _ & Hzone)%for_raise_inv.
    apply for_raise_inv in Hzone as ([vname data] & h' & _ & Hbody).
    case_bool_decide.
    + unfold st_bind, st_lift, np_take, create_dataset in Hbody.
      repeat (case_match; simplify_eq/=); auto.
    + unfold create_dataset in Hbody.
      repeat (case_match; simplify_eq/=); auto.
  - intros ([vname data] & h & _ & Hbody)%for_raise_inv.
    unfold st_bind, st_lift, slice_all, create_dataset in Hbody.
    repeat (case_match; simplify_eq/=); auto.
Qed.

(** X17: the only [UnboundLocalError] a call can raise is the one of
    [macro_filename] at line 125, with [write_macro=False]: where the
    local [nt] is read, the loop of lines 47-50 has bound it. *)
Theorem unbound_local_only_macro filename variables taxis tstart dt
    write_macro fs name :
  (create_hdf5 str_scalar cwd filename variables taxis tstart dt
     write_macro fs).1 = Raise (UnboundLocalError name) →
  name = "macro_filename" ∧ write_macro = false.
Proof.
  destruct variables as [|item variables'] eqn:Hv; [done|].
  rewrite <-Hv. assert (variables ≠ []) as Hne by by subst.
  clear Hv item variables'.
  rewrite (create_hdf5_unfold str_scalar cwd) by done.
  destruct (time_steps variables taxis) as [nt|e] eqn:Hnt.
  2:{ cbn. intros [= ->]. by apply nt_loop_raise in Hnt. }
  case_bool_decide; [done|].
  assert (is_Some taxis → is_Some nt) as Hbound.
  { intros [t ->]. eapply nt_loop_binds; [|exact Hnt].
    by apply max_rank_attained. }
  unfold export_from, st_bind at 1, with_h5_file.
  destruct (write_container variables taxis nt ∅) as [[[]|e] h5] eqn:Hw.
  2:{ cbn. intros [= ->].
      by apply (write_container_raise _ _ _ _ _ Hbound) in Hw. }
  unfold st_bind at 1, st_lift at 1, build_macro.
  destruct taxis as [t|].
  - destruct (Hbound (mk_is_Some _ _ eq_refl)) as [n ->]. cbn [local].
    destruct write_macro; cbn; [done | by intros [= <-]].
  - destruct write_macro; cbn; [done | by intros [= <-]].
Qed.

(** X18: a call that returns has written the macro: it returns the
    absolute container path and the macro path of line 122, the macro text
    is at the macro path, and the container is at the container path
    unless the two paths are the same. *)
Theorem returned_paths_written filename variables taxis tstart dt
    write_macro fs paths :
  let f := path_absolute cwd filename in
  let out := create_hdf5 str_scalar cwd filename variables taxis tstart dt
               write_macro fs in
  out.1 = Ok paths →
  write_macro = true ∧ paths = (f, macro_path f) ∧
  is_Some (macro_of out.2 (macro_path f)) ∧
  (macro_path f ≠ f → is_Some (container_of out.2 f)).
Proof.
  intros f out. subst out.
  unfold create_hdf5, export_from, st_bind, st_lift, st_raise, st_ret,
    with_h5_file, write_text. fold f.
  destruct (np_max _) as [max_rank|e]; [|done].
  destruct (nt_loop _ _ _ _) as [nt|e]; [|done].
  case_bool_decide; [done|].
  destruct (write_container variables taxis nt ∅) as [[[]|e] h5]; [|done].
  destruct (build_macro _ _ _ _ _ _ _ _) as [text|e]; [|done].
  destruct write_macro; cbn [local fst snd]; [|done].
  intros [= <-]. unfold container_of, macro_of.
  rewrite lookup_insert_eq. split; [done|]. split; [done|].
  split; [by eexists|]. intros Hne.
  rewrite lookup_insert_ne, lookup_insert_eq by done. by eexists.
Qed.

(** X19: the time stamps never reach the container: whatever the mode,
    two calls that differ in [tstart] and [dt] only have the same
    outcome and leave the same container. *)
Theorem time_stamps_not_in_container filename variables taxis tstart dt
    tstart' dt' write_macro fs :
  let f := path_absolute cwd filename in
  let out := create_hdf5 str_scalar cwd filename variables taxis tstart dt
               write_macro fs in
  let out' := create_hdf5 str_scalar cwd filename variables taxis tstart'
                dt' write_macro fs in
  out.1 = out'.1 ∧ container_of out.2 f = container_of out'.2 f.
Proof.
  intros f out out'. subst out out'.
  unfold create_hdf5, export_from, st_bind, st_lift, st_raise, st_ret,
    with_h5_file, write_text. fold f.
  destruct (np_max _) as [max_rank|e]; [|done].
  destruct (nt_loop _ _ _ _) as [nt|e]; [|done].
  case_bool_decide; [done|].
  destruct (write_container variables taxis nt ∅) as [[[]|e] h5]; [|done].
  unfold build_macro.
  destruct taxis as [t|]; [destruct (local "nt" nt) as [n|e]; [|done]|];
    destruct write_macro; cbn [local fst snd]; (split; [done|]);
    unfold container_of; rewrite ?lookup_insert; by repeat case_decide.
Qed.
End Outcomes.

Lemma unbound_local_only_macro_sample :
  "macro_filename" = "macro_filename" ∧ false = false.
Proof.
  apply (unbound_local_only_macro Sample.str_scalar Sample.cwd "X.h5"
           [("X", Sample.X)] None 0%Z 1%Z false ∅ "macro_filename").
  reflexivity.
Defined.

Lemma returned_paths_written_sample :
  is_Some
    (macro_of
       (Sample.run "X.h5" [("X", Sample.X)] None 0%Z 1%Z true ∅).2
       "/home/user/X.mcr").
Proof.
  refine (proj1 (proj2 (proj2 (returned_paths_written Sample.str_scalar
            Sample.cwd "X.h5" [("X", Sample.X)] None 0%Z 1%Z true ∅
            ("/home/user/X.h5", "/home/user/X.mcr") _)))).
  reflexivity.
Defined.
